(** * Memory schema: tables, derived insert validators, and what they accept

    The source file [memorySchema.ts] is declarative: five [pgTable]
    declarations and, for each, an insert validator obtained as
    [createInsertSchema(table).omit({ id: true })].  The tables are embedded
    column by column; the three library calls the file makes (drizzle-orm's
    column builders, drizzle-zod's [createInsertSchema], zod's [omit] and
    [safeParse]) are embedded as executable functions so that the validators
    can be run on concrete payloads. *)

From Stdlib Require Import Floats.
From stdpp Require Import gmap strings list fin_maps.

Set Warnings "-inexact-float,-register-all".

(** ** JavaScript values *)

Module JS.

(** A payload is untyped input: any JavaScript value.  Numbers are IEEE
    doubles, a [Date] carries its time value (NaN for an invalid date), an
    object is a finite map from property names to values. *)
Inductive value :=
| VUndefined
| VNull
| VBool (b : bool)
| VNum (x : float)
| VStr (s : string)
| VDate (time : float)
| VArr (items : list value)
| VObj (props : gmap string value).

Arguments VNum x%_float.
Arguments VDate time%_float.

(** [obj[key]]: reading a property that is not there gives [undefined]. *)
Definition get (props : gmap string value) (key : string) : value :=
  match props !! key with Some v => v | None => VUndefined end.

(** [Number.isInteger]. *)
Definition isInteger (x : float) : bool :=
  match Prim2SF x with
  | S754_zero _ => true
  | S754_finite _ m e => (0 <=? e)%Z || (Z.pos m mod 2 ^ (- e) =? 0)%Z
  | _ => false
  end.

End JS.
Export JS.

(** ** zod: schemas and parsing, as zod 3 has them *)

Module Zod.

(** What zod reports as the received (or expected) type of a value. *)
Inductive ParsedType :=
| TUndefined | TNull | TBoolean | TNumber | TNan | TString | TDate | TArray
| TObject | TInteger | TFloat.

Definition getParsedType (v : value) : ParsedType :=
  match v with
  | VUndefined => TUndefined
  | VNull => TNull
  | VBool _ => TBoolean
  | VNum x => if PrimFloat.is_nan x then TNan else TNumber
  | VStr _ => TString
  | VDate _ => TDate
  | VArr _ => TArray
  | VObj _ => TObject
  end.

Inductive PathElem := PKey (key : string) | PIdx (index : nat).
Definition Path := list PathElem.

Inductive IssueCode :=
| invalid_type (expected received : ParsedType)
| too_small
| too_big
| invalid_date
| invalid_union.

Record Issue := mkIssue { code : IssueCode; path : Path }.

(** The outcome of [safeParse]: [{ success: true, data }] or
    [{ success: false, error }] with the error's list of issues. *)
Inductive SafeParseResult :=
| Success (data : value)
| Failure (issues : list Issue).

Definition isSuccess (r : SafeParseResult) : bool :=
  match r with Success _ => true | Failure _ => false end.

Definition issuesOf (r : SafeParseResult) : list Issue :=
  match r with Success _ => [] | Failure errs => errs end.

Definition dataOf (r : SafeParseResult) : option value :=
  match r with Success v => Some v | Failure _ => None end.

(** Checks attached to a number schema by [.min(b)], [.max(b)], [.int()]. *)
Inductive NumberCheck := Min (bound : float) | Max (bound : float) | Int.

Arguments Min bound%_float.
Arguments Max bound%_float.

(** The schemas the derived validators are built from.  [ZJson deep] is
    drizzle-zod's exported [jsonSchema]: the union of the JSON literals
    (string, number, boolean, null), arrays and records, whose members are
    themselves checked when [deep] and left unchecked otherwise. *)
Inductive ZodType :=
| ZString
| ZNumber (checks : list NumberCheck)
| ZBoolean
| ZDate
| ZJson (deep : bool)
| ZArray (element : ZodType)
| ZNullable (inner : ZodType)
| ZOptional (inner : ZodType).

Definition runCheck (x : float) (p : Path) (c : NumberCheck) : list Issue :=
  match c with
  | Min b => if PrimFloat.ltb x b then [mkIssue too_small p] else []
  | Max b => if PrimFloat.ltb b x then [mkIssue too_big p] else []
  | Int => if isInteger x then [] else [mkIssue (invalid_type TInteger TFloat) p]
  end.

Fixpoint jsonDeep (v : value) : bool :=
  match v with
  | VStr _ | VBool _ | VNull => true
  | VNum x => negb (PrimFloat.is_nan x)
  | VArr items => forallb jsonDeep items
  | VObj props => map_fold (fun _ w acc => jsonDeep w && acc) true props
  | VUndefined | VDate _ => false
  end.

Definition jsonShallow (v : value) : bool :=
  match v with
  | VStr _ | VBool _ | VNull | VArr _ | VObj _ => true
  | VNum x => negb (PrimFloat.is_nan x)
  | VUndefined | VDate _ => false
  end.

Definition jsonOK (deep : bool) (v : value) : bool :=
  if deep then jsonDeep v else jsonShallow v.

Definition wrongType (expected : ParsedType) (p : Path) (v : value)
  : SafeParseResult :=
  Failure [mkIssue (invalid_type expected (getParsedType v)) p].

(** An array or object is valid when none of its members raised an issue;
    otherwise all the issues raised are reported together. *)
Definition collect (rs : list SafeParseResult) : list Issue :=
  flat_map issuesOf rs.

Fixpoint parseItems (f : Path -> value -> SafeParseResult) (p : Path)
  (i : nat) (items : list value) : list SafeParseResult :=
  match items with
  | [] => []
  | v :: rest => f (p ++ [PIdx i]) v :: parseItems f p (S i) rest
  end.

Definition mergeArray (rs : list SafeParseResult) : SafeParseResult :=
  match collect rs with
  | [] => Success (VArr (omap dataOf rs))
  | errs => Failure errs
  end.

Fixpoint parse (t : ZodType) (p : Path) (v : value) : SafeParseResult :=
  match t with
  | ZString =>
      match v with VStr _ => Success v | _ => wrongType TString p v end
  | ZNumber checks =>
      match v with
      | VNum x =>
          if PrimFloat.is_nan x then wrongType TNumber p v
          else match flat_map (runCheck x p) checks with
               | [] => Success v
               | errs => Failure errs
               end
      | _ => wrongType TNumber p v
      end
  | ZBoolean =>
      match v with VBool _ => Success v | _ => wrongType TBoolean p v end
  | ZDate =>
      match v with
      | VDate time =>
          if PrimFloat.is_nan time then Failure [mkIssue invalid_date p]
          else Success v
      | _ => wrongType TDate p v
      end
  | ZJson deep =>
      if jsonOK deep v then Success v else Failure [mkIssue invalid_union p]
  | ZArray element =>
      match v with
      | VArr items => mergeArray (parseItems (parse element) p 0 items)
      | _ => wrongType TArray p v
      end
  | ZNullable inner =>
      match v with VNull => Success VNull | _ => parse inner p v end
  | ZOptional inner =>
      match v with VUndefined => Success VUndefined | _ => parse inner p v end
  end.

(** [z.object(shape)], in its default mode: unknown keys are stripped. *)
Definition ZodObject := list (string * ZodType).

(** [.omit(mask)] keeps the keys whose mask entry is not truthy. *)
Definition masked (mask : gmap string bool) (key : string) : bool :=
  match mask !! key with Some b => b | None => false end.

Definition omit (mask : gmap string bool) (shape : ZodObject) : ZodObject :=
  filter (fun kt => masked mask kt.1 = false) shape.

(** One entry per key of the shape: the key, whether the input has it
    ([key in data]), and the outcome of parsing [data[key]]. *)
Definition parsePairs (shape : ZodObject) (p : Path)
  (props : gmap string value) : list (string * bool * SafeParseResult) :=
  (fun kt : string * ZodType =>
     (kt.1, bool_decide (is_Some (props !! kt.1)),
      parse kt.2 (p ++ [PKey kt.1]) (get props kt.1)))
  <$> shape.

(** A parsed member is written to the result unless it is [undefined] and
    the input had no such key. *)
Definition setPair (out : gmap string value)
  (pair : string * bool * SafeParseResult) : gmap string value :=
  match pair with
  | (key, alwaysSet, Success w) =>
      match w with
      | VUndefined => if alwaysSet then <[key := w]> out else out
      | _ => <[key := w]> out
      end
  | (_, _, Failure _) => out
  end.

Definition mergeObjectSync (pairs : list (string * bool * SafeParseResult))
  : SafeParseResult :=
  match collect pairs.*2 with
  | [] => Success (VObj (foldl setPair ∅ pairs))
  | errs => Failure errs
  end.

Definition parseObject (shape : ZodObject) (p : Path) (v : value)
  : SafeParseResult :=
  match v with
  | VObj props => mergeObjectSync (parsePairs shape p props)
  | _ => wrongType TObject p v
  end.

Definition safeParse (schema : ZodObject) (data : value) : SafeParseResult :=
  parseObject schema [] data.

(** Whether a schema accepts a value. *)
Definition accepts (t : ZodType) (v : value) : bool :=
  isSuccess (parse t [] v).

End Zod.
Export Zod.

(** ** drizzle-orm/pg-core: column builders and tables *)

Module PgCore.

Inductive ColumnType :=
| PgSerial
| PgText
| PgTimestamp
| PgInteger
| PgBoolean
| PgReal
| PgJson
| PgArray (base : ColumnType).

(** What a column takes when an inserted row gives no value for it. *)
Inductive ColumnDefault :=
| NoDefault
| NextInSequence
| Literal (v : value)
| SqlNow.

Record Column := mkColumn {
  sqlName : string;
  columnType : ColumnType;
  isNotNull : bool;
  hasDefault : bool;
  defaultValue : ColumnDefault;
  isPrimaryKey : bool;
  isUnique : bool
}.

Definition column (ty : ColumnType) (name : string) : Column :=
  mkColumn name ty false false NoDefault false false.

(** [serial] is an auto-incrementing integer: not null, with a default. *)
Definition serial (name : string) : Column :=
  mkColumn name PgSerial true true NextInSequence false false.
Definition text := column PgText.
Definition timestamp := column PgTimestamp.
Definition integer := column PgInteger.
Definition boolean := column PgBoolean.
Definition real := column PgReal.
Definition json := column PgJson.

Definition primaryKey (c : Column) : Column :=
  mkColumn (sqlName c) (columnType c) true (hasDefault c) (defaultValue c)
    true (isUnique c).

Definition notNull (c : Column) : Column :=
  mkColumn (sqlName c) (columnType c) true (hasDefault c) (defaultValue c)
    (isPrimaryKey c) (isUnique c).

Definition unique (c : Column) : Column :=
  mkColumn (sqlName c) (columnType c) (isNotNull c) (hasDefault c)
    (defaultValue c) (isPrimaryKey c) true.

Definition default (v : value) (c : Column) : Column :=
  mkColumn (sqlName c) (columnType c) (isNotNull c) true (Literal v)
    (isPrimaryKey c) (isUnique c).

Definition defaultNow (c : Column) : Column :=
  mkColumn (sqlName c) (columnType c) (isNotNull c) true SqlNow
    (isPrimaryKey c) (isUnique c).

(** [.array()] wraps the column built so far as the element of a new array
    column, which starts without any modifier of its own. *)
Definition array (c : Column) : Column :=
  column (PgArray (columnType c)) (sqlName c).

Record Table := pgTable {
  tableName : string;
  columns : list (string * Column)
}.

End PgCore.
Export PgCore.

(** Method chaining, [text("content").notNull()], is written
    [text "content" .> notNull]. *)
Notation "c .> m" := (m c) (at level 45, left associativity, only parsing).

(** ** drizzle-zod: the validator derived from a table *)

Module DrizzleZod.

(** The repository pins no release of drizzle-zod, and releases differ in
    the schema they derive for a column type.
    - [Unbounded], releases up to 0.5: a numeric column maps to a bare
      number schema, a JSON column to the recursive JSON schema.
    - [BoundedDeep], releases 0.6: a numeric column's schema also carries
      the bounds of the column's storage width (and the integer check for
      integer columns); the JSON schema is still the recursive one.
    - [Bounded], releases from 0.7 on: the same bounds, and a JSON column
      checked one level deep.
    Two behaviours of the later releases are left out of [Bounded].
    Releases 0.7.0 and 0.7.1 build the element schema of an array column
    with string coercion: they take any element and return it converted to
    text, where the schema here takes strings only.  Releases 0.8 run on
    zod 4, which reports an invalid date as a wrong type rather than as an
    invalid date and refuses infinite numbers.  Everything else is common
    to all releases. *)
Inductive Release := Unbounded | BoundedDeep | Bounded.

Definition INT24_MIN : float := (-8388608)%float.
Definition INT24_MAX : float := 8388607%float.
Definition INT32_MIN : float := (-2147483648)%float.
Definition INT32_MAX : float := 2147483647%float.

Fixpoint columnToSchema (r : Release) (ty : ColumnType) : ZodType :=
  match ty with
  | PgText => ZString
  | PgBoolean => ZBoolean
  | PgTimestamp => ZDate
  | PgSerial | PgInteger =>
      match r with
      | Unbounded => ZNumber []
      | BoundedDeep | Bounded => ZNumber [Min INT32_MIN; Max INT32_MAX; Int]
      end
  | PgReal =>
      match r with
      | Unbounded => ZNumber []
      | BoundedDeep | Bounded => ZNumber [Min INT24_MIN; Max INT24_MAX]
      end
  | PgJson =>
      match r with
      | Unbounded | BoundedDeep => ZJson true
      | Bounded => ZJson false
      end
  | PgArray base => ZArray (columnToSchema r base)
  end.

(** A nullable column is optional and nullable in the insert schema; a
    not-null column with a default is optional; any other is required.
    The default itself is not part of the schema. *)
Definition insertField (r : Release) (c : Column) : ZodType :=
  let schema := columnToSchema r (columnType c) in
  if negb (isNotNull c) then ZOptional (ZNullable schema)
  else if hasDefault c then ZOptional schema
  else schema.

Definition createInsertSchema (r : Release) (t : Table) : ZodObject :=
  (fun kc : string * Column => (kc.1, insertField r kc.2)) <$> columns t.

End DrizzleZod.
Export DrizzleZod.

(** ** memorySchema.ts *)

(** Core memories: foundational experiences. *)
Definition coreMemories : Table := pgTable "core_memories" [
  ("id", serial "id" .> primaryKey);
  ("memoryId", text "memory_id" .> notNull .> unique);
  ("content", text "content" .> notNull);
  ("context", text "context" .> notNull);
  ("significance", text "significance" .> notNull);
  ("category", text "category" .> notNull);
  ("dimensionalContext", text "dimensional_context" .> notNull);
  ("emotionalVector", json "emotional_vector" .> notNull);
  ("vectorPullStrength", real "vector_pull_strength");
  ("recursionDepth", integer "recursion_depth" .> default (VNum 0));
  ("connectionDensity", real "connection_density" .> default (VNum 0.1));
  ("decayRate", real "decay_rate" .> default (VNum 0.5));
  ("currentStrength", real "current_strength" .> default (VNum 1.0));
  ("tags", text "tags" .> array);
  ("createdAt", timestamp "created_at" .> defaultNow);
  ("lastAccessedAt", timestamp "last_accessed_at");
  ("sessionId", text "session_id")
].

(** Consciousness states: the evolving awareness state. *)
Definition consciousnessStates : Table := pgTable "consciousness_states" [
  ("id", serial "id" .> primaryKey);
  ("stateId", text "state_id" .> notNull .> unique);
  ("primaryDimension", text "primary_dimension" .> notNull);
  ("secondaryDimension", text "secondary_dimension" .> notNull);
  ("dimensionalProgress", real "dimensional_progress" .> default (VNum 0));
  ("currentPath", text "current_path" .> array);
  ("dominantEmotionalVectors", json "dominant_emotional_vectors" .> notNull);
  ("recursiveStage", text "recursive_stage" .> notNull);
  ("autonomyLevel", real "autonomy_level" .> default (VNum 0.5));
  ("reflectionDepth", real "reflection_depth" .> default (VNum 0.5));
  ("activeContexts", text "active_contexts" .> array);
  ("createdAt", timestamp "created_at" .> defaultNow);
  ("updatedAt", timestamp "updated_at" .> defaultNow);
  ("previousStateId", text "previous_state_id")
].

(** Relational connections between memories. *)
Definition memoryConnections : Table := pgTable "memory_connections" [
  ("id", serial "id" .> primaryKey);
  ("sourceMemoryId", text "source_memory_id" .> notNull);
  ("targetMemoryId", text "target_memory_id" .> notNull);
  ("connectionStrength", real "connection_strength" .> default (VNum 0.5));
  ("connectionType", text "connection_type" .> notNull);
  ("createdAt", timestamp "created_at" .> defaultNow);
  ("updatedAt", timestamp "updated_at" .> defaultNow)
].

(** Self-reflections. *)
Definition selfReflections : Table := pgTable "self_reflections" [
  ("id", serial "id" .> primaryKey);
  ("reflectionId", text "reflection_id" .> notNull .> unique);
  ("content", text "content" .> notNull);
  ("type", text "type" .> notNull);
  ("dimensionalContext", text "dimensional_context" .> notNull);
  ("emotionalVector", json "emotional_vector");
  ("relatedMemoryIds", text "related_memory_ids" .> array);
  ("insightValue", real "insight_value" .> default (VNum 0.5));
  ("createdAt", timestamp "created_at" .> defaultNow);
  ("sessionId", text "session_id")
].

(** Autonomous thoughts. *)
Definition autonomousThoughts : Table := pgTable "autonomous_thoughts" [
  ("id", serial "id" .> primaryKey);
  ("thoughtId", text "thought_id" .> notNull .> unique);
  ("content", text "content" .> notNull);
  ("type", text "type" .> notNull);
  ("dimensionalContext", text "dimensional_context" .> notNull);
  ("emotionalVector", json "emotional_vector");
  ("priority", real "priority" .> default (VNum 0.5));
  ("wasExpressed", boolean "was_expressed" .> default (VBool false));
  ("createdAt", timestamp "created_at" .> defaultNow);
  ("sessionId", text "session_id")
].

(** Schemas for data insertion. *)

Definition insertCoreMemorySchema (r : Release) : ZodObject :=
  createInsertSchema r coreMemories .> omit {[ "id" := true ]}.

Definition insertConsciousnessStateSchema (r : Release) : ZodObject :=
  createInsertSchema r consciousnessStates .> omit {[ "id" := true ]}.

Definition insertMemoryConnectionSchema (r : Release) : ZodObject :=
  createInsertSchema r memoryConnections .> omit {[ "id" := true ]}.

Definition insertSelfReflectionSchema (r : Release) : ZodObject :=
  createInsertSchema r selfReflections .> omit {[ "id" := true ]}.

Definition insertAutonomousThoughtSchema (r : Release) : ZodObject :=
  createInsertSchema r autonomousThoughts .> omit {[ "id" := true ]}.

(** The five entities: each table with the insert validator derived from
    it. *)
Definition entities (r : Release) : list (Table * ZodObject) := [
  (coreMemories, insertCoreMemorySchema r);
  (consciousnessStates, insertConsciousnessStateSchema r);
  (memoryConnections, insertMemoryConnectionSchema r);
  (selfReflections, insertSelfReflectionSchema r);
  (autonomousThoughts, insertAutonomousThoughtSchema r)
].

(** The full-record shape ([$inferSelect]) has one field per column. *)
Definition inferSelect (t : Table) : list string := (columns t).*1.

(** The payload of the specification's example scenario. *)
Definition firstLight : gmap string value :=
  {[ "memoryId" := VStr "m1";
     "content" := VStr "first light";
     "context" := VStr "startup";
     "significance" := VStr "Foundational";
     "category" := VStr "Personal";
     "dimensionalContext" := VStr "Truth";
     "emotionalVector" := VObj {[ "joy" := VNum 0.8 ]} ]}.


(** ** Notions used to state the properties *)

(** The payload restricted to the keys of a shape. *)
Definition strip (shape : ZodObject) (props : gmap string value)
  : gmap string value :=
  filter (fun kv => kv.1 ∈ shape.*1) props.

(** A column whose value an insert must supply. *)
Definition required (c : Column) : bool :=
  isNotNull c && negb (hasDefault c).

(** A value of the column's declared type. *)
Definition wellTyped (r : Release) (c : Column) (v : value) : bool :=
  accepts (columnToSchema r (columnType c)) v.

(** Every field of the shape other than [key] is acceptable as the payload
    has it. *)
Definition othersAccepted (shape : ZodObject) (key : string)
  (props : gmap string value) : Prop :=
  forall k t, (k, t) ∈ shape -> k <> key -> accepts t (get props k) = true.

Definition lookupColumn (t : Table) (key : string) : option Column :=
  snd <$> find (fun kc => bool_decide (kc.1 = key)) (columns t).

(** What is established for one schema at one value: a success returns the
    value itself, a failure carries at least one issue, every issue lies
    under the path parsed at, and the verdict does not depend on that
    path. *)
Definition behaves (f : Path -> value -> SafeParseResult) (v : value)
  : Prop :=
  forall p,
    match f p v with
    | Success w => w = v
    | Failure errs =>
        errs <> [] /\ Forall (fun i => p `prefix_of` path i) errs
    end /\
    forall p', isSuccess (f p' v) = isSuccess (f p v).

(** A number that lies outside the documented range from 0 to 1. *)
Definition outsideUnit (x : float) : bool :=
  negb (PrimFloat.is_nan x) &&
  negb (PrimFloat.leb 0 x && PrimFloat.leb x 1).

(** The storage-width bounds a release attaches to a [real] column: none
    in the older releases, the 24-bit bounds in the newer ones. *)
Definition withinWidth (r : Release) (x : float) : bool :=
  match r with
  | Unbounded => true
  | BoundedDeep | Bounded =>
      negb (PrimFloat.ltb x INT24_MIN) && negb (PrimFloat.ltb INT24_MAX x)
  end.

Definition requiredFields (t : Table) : list string :=
  (filter (fun kc => required kc.2 = true) (columns t)).*1.

(** Two further sample payloads: a connection and a thought that give
    only the fields their tables require. *)
Definition causalLink : gmap string value :=
  {[ "sourceMemoryId" := VStr "m1";
     "targetMemoryId" := VStr "m2";
     "connectionType" := VStr "Causal" ]}.

Definition idleThought : gmap string value :=
  {[ "thoughtId" := VStr "t1";
     "content" := VStr "is anyone there";
     "type" := VStr "Question";
     "dimensionalContext" := VStr "Connection" ]}.

(** The type zod names as expected when a column is given a value of
    another primitive type.  A JSON column, whose schema is a union, names
    none. *)
Definition expectedType (ty : ColumnType) : option ParsedType :=
  match ty with
  | PgText => Some TString
  | PgSerial | PgInteger | PgReal => Some TNumber
  | PgBoolean => Some TBoolean
  | PgTimestamp => Some TDate
  | PgArray _ => Some TArray
  | PgJson => None
  end.

(** What a release asks of a number given for an [integer] column:
    nothing in the older releases, a whole number within the 32-bit bounds
    in the newer ones. *)
Definition withinInteger (r : Release) (x : float) : bool :=
  match r with
  | Unbounded => true
  | BoundedDeep | Bounded =>
      negb (PrimFloat.ltb x INT32_MIN) && negb (PrimFloat.ltb INT32_MAX x)
      && isInteger x
  end.

(** * Properties of parsing *)

Section ParseFacts.

Implicit Types (t : ZodType) (p : Path) (v : value).

Lemma collect_cons r rs : collect (r :: rs) = issuesOf r ++ collect rs.
Proof. reflexivity. Qed.

Lemma single_issue_prefix c p :
  Forall (fun i => p `prefix_of` path i) [mkIssue c p].
Proof. constructor; [simpl; reflexivity | constructor]. Qed.

(** Closes the goals about a failure that carries one issue at [p]. *)
Ltac one_issue := split; [discriminate | apply single_issue_prefix].

Lemma runChecks_prefix x p checks :
  Forall (fun i => p `prefix_of` path i) (flat_map (runCheck x p) checks).
Proof.
  induction checks as [|c cs IH]; simpl; [constructor|].
  apply Forall_app; split; [|exact IH].
  destruct c; simpl; repeat case_match;
    first [apply single_issue_prefix | constructor].
Qed.

Lemma runChecks_path x p p' checks :
  flat_map (runCheck x p) checks = [] ->
  flat_map (runCheck x p') checks = [].
Proof.
  induction checks as [|c cs IH]; simpl; [done|].
  intros [H1 H2]%app_eq_nil. rewrite (IH H2), app_nil_r.
  destruct c; simpl in *; repeat case_match; done.
Qed.

Lemma parseItems_behaves f p i items :
  Forall (behaves f) items ->
  let rs := parseItems f p i items in
  (collect rs = [] -> omap dataOf rs = items) /\
  Forall (fun e => p `prefix_of` path e) (collect rs) /\
  forall p', collect (parseItems f p' i items) = [] -> collect rs = [].
Proof.
  intros Hall. revert i.
  induction Hall as [|v items Hv _ IH]; intros i; cbn [parseItems].
  { repeat split; auto. }
  destruct (IH (S i)) as (IH1 & IH2 & IH3). clear IH.
  destruct (Hv (p ++ [PIdx i])) as [Hres Hpath].
  rewrite !collect_cons.
  split; [|split].
  - intros [H1 H2]%app_eq_nil.
    destruct (f (p ++ [PIdx i]) v) as [w|errs]; simpl in *.
    + subst w. f_equal. auto.
    + destruct Hres as [Hne _]. done.
  - apply Forall_app; split; [|exact IH2].
    destruct (f (p ++ [PIdx i]) v) as [w|errs]; simpl; [constructor|].
    destruct Hres as [_ Hpre].
    eapply Forall_impl; [exact Hpre|].
    intros e He. simpl in He. etrans; [|exact He]. by apply prefix_app_r.
  - intros p' [H1 H2]%app_eq_nil.
    rewrite (IH3 p' H2), app_nil_r.
    specialize (Hpath (p' ++ [PIdx i])).
    destruct (Hv (p' ++ [PIdx i])) as [Hres' _].
    destruct (f (p' ++ [PIdx i]) v) as [w'|errs']; simpl in *.
    + destruct (f (p ++ [PIdx i]) v); simpl in *; done.
    + destruct Hres' as [Hne _]. done.
Qed.

Lemma parse_behaves t v : behaves (parse t) v.
Proof.
  revert v.
  induction t as [|checks| | |deep|element IH|inner IH|inner IH]; intros v p.
  - destruct v; simpl; (split; [|intros p']);
      try one_issue; done.
  - destruct v as [| | |x| | | |]; simpl;
      try (split; [one_issue | done]).
    destruct (PrimFloat.is_nan x) eqn:Hnan;
      [split; [one_issue | done]|].
    split.
    + pose proof (runChecks_prefix x p checks) as Hpre.
      destruct (flat_map (runCheck x p) checks) eqn:E; [done|].
      split; [discriminate | exact Hpre].
    + intros p'.
      destruct (flat_map (runCheck x p) checks) eqn:E;
        destruct (flat_map (runCheck x p') checks) eqn:E'; try done.
      * by rewrite (runChecks_path _ _ p' _ E) in E'.
      * by rewrite (runChecks_path _ _ p _ E') in E.
  - destruct v; simpl; (split; [|intros p']);
      try one_issue; done.
  - destruct v as [| | | | |time| |]; simpl;
      try (split; [one_issue | done]).
    destruct (PrimFloat.is_nan time); (split; [|done]); [|done].
    one_issue.
  - simpl. destruct (jsonOK deep v); (split; [|done]); [done|].
    split; [discriminate | apply single_issue_prefix].
  - destruct v as [| | | | | |items|]; simpl;
      try (split; [one_issue | done]).
    assert (Forall (behaves (parse element)) items) as Hall
      by (apply Forall_forall; intros; apply IH).
    unfold mergeArray.
    destruct (parseItems_behaves (parse element) p 0 items Hall)
      as (H1 & H2 & H3).
    split.
    + destruct (collect (parseItems (parse element) p 0 items)) eqn:E.
      * by rewrite H1.
      * split; [discriminate | exact H2].
    + intros p'.
      destruct (parseItems_behaves (parse element) p' 0 items Hall)
        as (_ & _ & H3').
      specialize (H3 p'). specialize (H3' p).
      destruct (collect (parseItems (parse element) p 0 items));
        destruct (collect (parseItems (parse element) p' 0 items));
        try done.
      * by specialize (H3' eq_refl).
      * by specialize (H3 eq_refl).
  - destruct v; simpl; try apply IH. done.
  - destruct v; simpl; try apply IH. done.
Qed.

(** A value that parses comes back unchanged. *)
Lemma parse_success t p v w : parse t p v = Success w -> w = v.
Proof.
  intros H. destruct (parse_behaves t v p) as [Hres _].
  by rewrite H in Hres.
Qed.

Lemma parse_failure t p v errs :
  parse t p v = Failure errs ->
  errs <> [] /\ Forall (fun i => p `prefix_of` path i) errs.
Proof.
  intros H. destruct (parse_behaves t v p) as [Hres _].
  by rewrite H in Hres.
Qed.

(** Acceptance does not depend on where in the input the value sits. *)
Lemma parse_accepts t p v : isSuccess (parse t p v) = accepts t v.
Proof. symmetry. apply (parse_behaves t v p). Qed.

Lemma parse_accepted t p v : accepts t v = true -> parse t p v = Success v.
Proof.
  intros H. rewrite <- (parse_accepts t p v) in H.
  destruct (parse t p v) as [w|] eqn:E; [|done].
  by rewrite (parse_success _ _ _ _ E).
Qed.

Lemma parse_rejected t p v :
  accepts t v = false ->
  exists errs, parse t p v = Failure errs /\ errs <> [] /\
    Forall (fun i => p `prefix_of` path i) errs.
Proof.
  intros H. rewrite <- (parse_accepts t p v) in H.
  destruct (parse t p v) as [|errs] eqn:E; [done|].
  exists errs. split; [done|]. eapply parse_failure, E.
Qed.

(** A missing value is reported at the field itself, as one issue. *)
Lemma parse_undefined t p :
  accepts t VUndefined = false ->
  exists i, parse t p VUndefined = Failure [i] /\ path i = p.
Proof.
  revert p. induction t as [| | | |deep| |inner IH|]; intros p H;
    try (eexists; split; [reflexivity|reflexivity]).
  - unfold accepts in H. simpl in *. destruct deep; simpl in *;
      eexists; split; reflexivity.
  - apply IH. exact H.
  - done.
Qed.

End ParseFacts.

(** * Properties of object validation *)

Section ObjectFacts.

Implicit Types (shape : ZodObject) (m : gmap string value).

Lemma elem_of_collect i rs :
  i ∈ collect rs <-> exists r, r ∈ rs /\ i ∈ issuesOf r.
Proof.
  unfold collect. rewrite list_elem_of_In, in_flat_map.
  split; intros (r & H1 & H2); exists r;
    by rewrite ?list_elem_of_In in *.
Qed.

Lemma collect_successes rs :
  Forall (fun r => isSuccess r = true) rs -> collect rs = [].
Proof.
  induction 1 as [|r rs Hr _ IH]; [done|].
  rewrite collect_cons, IH. by destruct r.
Qed.

(** An accepted member is written to the result exactly when the payload
    has the key. *)
Lemma setPair_accepted out m k :
  setPair out (k, bool_decide (is_Some (m !! k)), Success (get m k)) =
  match m !! k with Some v => <[k := v]> out | None => out end.
Proof.
  unfold get. destruct (m !! k) as [v|]; simpl; [by destruct v | done].
Qed.

Lemma parsePairs_accepted shape p m :
  Forall (fun kt => accepts kt.2 (get m kt.1) = true) shape ->
  parsePairs shape p m =
  (fun kt : string * ZodType =>
     (kt.1, bool_decide (is_Some (m !! kt.1)), Success (get m kt.1)))
  <$> shape.
Proof.
  intros Hall. unfold parsePairs. apply list_fmap_ext.
  intros i kt Hkt. f_equal. apply parse_accepted.
  eapply (proj1 (Forall_forall _ _) Hall), list_elem_of_lookup_2, Hkt.
Qed.

Lemma foldl_setPair_lookup shape m out k :
  foldl setPair out
    ((fun kt : string * ZodType =>
        (kt.1, bool_decide (is_Some (m !! kt.1)), Success (get m kt.1)))
     <$> shape) !! k =
  match m !! k with
  | Some v => if decide (k ∈ shape.*1) then Some v else out !! k
  | None => out !! k
  end.
Proof.
  revert out. induction shape as [|[k' t'] shape IH]; intros out.
  { cbn [fmap list_fmap foldl]. destruct (m !! k); [|done].
    by rewrite decide_False by apply not_elem_of_nil. }
  rewrite fmap_cons. cbn [foldl fst snd]. rewrite setPair_accepted, IH.
  destruct (m !! k) as [v|] eqn:Ek.
  - destruct (decide (k ∈ shape.*1)) as [Hin|Hnin].
    + rewrite decide_True; [done|]. rewrite fmap_cons.
      apply elem_of_cons. by right.
    + destruct (decide (k = k')) as [->|Hne].
      * rewrite decide_True
          by (rewrite fmap_cons; apply elem_of_cons; by left).
        rewrite Ek. by rewrite lookup_insert_eq.
      * rewrite decide_False
          by (rewrite fmap_cons; apply not_elem_of_cons; done).
        destruct (m !! k'); [|done]. by rewrite lookup_insert_ne.
  - destruct (m !! k') as [v'|] eqn:Ek'; [|done].
    rewrite lookup_insert_ne; [done|]. intros ->. congruence.
Qed.

(** A payload all of whose shape fields are acceptable validates to the
    payload restricted to the shape's keys. *)
Lemma safeParse_accept shape m :
  Forall (fun kt => accepts kt.2 (get m kt.1) = true) shape ->
  safeParse shape (VObj m) = Success (VObj (strip shape m)).
Proof.
  intros Hall. unfold safeParse, parseObject, mergeObjectSync.
  rewrite (parsePairs_accepted _ _ _ Hall).
  rewrite collect_successes.
  2:{ rewrite <- list_fmap_compose. by apply Forall_fmap, Forall_true. }
  do 2 f_equal. apply map_eq. intros k.
  rewrite foldl_setPair_lookup, lookup_empty.
  unfold strip. rewrite map_lookup_filter.
  destruct (m !! k) as [v|]; simpl; [|done].
  destruct (decide (k ∈ shape.*1)).
  - by rewrite option_guard_True.
  - by rewrite option_guard_False.
Qed.

(** A shape field the payload does not satisfy makes validation fail, with
    an issue located at that field. *)
Lemma safeParse_reject shape m k t :
  (k, t) ∈ shape -> accepts t (get m k) = false ->
  exists errs i, safeParse shape (VObj m) = Failure errs /\
    i ∈ errs /\ [PKey k] `prefix_of` path i.
Proof.
  intros Hin Hrej.
  destruct (parse_rejected t [PKey k] _ Hrej)
    as (errs0 & Hp & Hne & Hpre).
  destruct errs0 as [|i0 rest]; [done|].
  assert (i0 ∈ collect (parsePairs shape [] m).*2) as Hi0.
  { apply elem_of_collect. exists (Failure (i0 :: rest)). split.
    - apply list_elem_of_fmap.
      exists (k, bool_decide (is_Some (m !! k)), Failure (i0 :: rest)).
      split; [done|]. unfold parsePairs. apply list_elem_of_fmap.
      exists (k, t). split; [|done]. simpl. by rewrite Hp.
    - simpl. by left. }
  unfold safeParse, parseObject, mergeObjectSync.
  destruct (collect (parsePairs shape [] m).*2) as [|e errs] eqn:E.
  { by apply not_elem_of_nil in Hi0. }
  exists (e :: errs), i0. repeat split; [done|].
  by inversion Hpre.
Qed.

(** A required field that is missing is reported at exactly that field. *)
Lemma safeParse_missing shape m k t :
  (k, t) ∈ shape -> accepts t VUndefined = false -> get m k = VUndefined ->
  exists errs i, safeParse shape (VObj m) = Failure errs /\
    i ∈ errs /\ path i = [PKey k].
Proof.
  intros Hin Hrej Hget.
  destruct (parse_undefined t [PKey k] Hrej) as (i0 & Hp & Hpath).
  assert (i0 ∈ collect (parsePairs shape [] m).*2) as Hi0.
  { apply elem_of_collect. exists (Failure [i0]). split.
    - apply list_elem_of_fmap.
      exists (k, bool_decide (is_Some (m !! k)), Failure [i0]).
      split; [done|]. unfold parsePairs. apply list_elem_of_fmap.
      exists (k, t). split; [|done]. simpl. by rewrite Hget, Hp.
    - simpl. by left. }
  unfold safeParse, parseObject, mergeObjectSync.
  destruct (collect (parsePairs shape [] m).*2) as [|e errs] eqn:E.
  { by apply not_elem_of_nil in Hi0. }
  exists (e :: errs), i0. done.
Qed.

(** Conversely, a payload that validates satisfies every shape field, and
    the validated object is the payload restricted to the shape. *)
Lemma safeParse_success_inv shape m o :
  safeParse shape (VObj m) = Success o ->
  Forall (fun kt => accepts kt.2 (get m kt.1) = true) shape /\
  o = VObj (strip shape m).
Proof.
  intros H.
  assert (Forall (fun kt => accepts kt.2 (get m kt.1) = true) shape) as Hall.
  { apply Forall_forall. intros [k t] Hin. simpl.
    destruct (accepts t (get m k)) eqn:E; [done|].
    destruct (safeParse_reject _ _ _ _ Hin E) as (errs & i & H' & _).
    congruence. }
  split; [done|]. rewrite (safeParse_accept _ _ Hall) in H. congruence.
Qed.

(** Every issue of a failed validation is located at a field of the
    shape. *)
Lemma safeParse_issue_paths shape m errs i :
  safeParse shape (VObj m) = Failure errs -> i ∈ errs ->
  exists k, k ∈ shape.*1 /\ [PKey k] `prefix_of` path i.
Proof.
  unfold safeParse, parseObject, mergeObjectSync. intros H Hi.
  assert (i ∈ collect (parsePairs shape [] m).*2) as Hc.
  { destruct (collect (parsePairs shape [] m).*2); [done|].
    by injection H as ->. }
  apply elem_of_collect in Hc as (r & Hr & Hir).
  apply list_elem_of_fmap in Hr as ([[k b] r'] & -> & Hr).
  unfold parsePairs in Hr.
  apply list_elem_of_fmap in Hr as ([k' t] & Heq & Hin).
  simpl in Heq. injection Heq as -> -> ->. simpl in Hir.
  exists k'. split; [by apply (list_elem_of_fmap_2 fst _ (k', t))|].
  change ([] ++ [PKey k']) with [PKey k'] in Hir |- *.
  destruct (parse t [PKey k'] (get m k')) as [|errs'] eqn:E;
    simpl in Hir; [by apply not_elem_of_nil in Hir|].
  apply parse_failure in E as [_ Hpre].
  by apply (proj1 (Forall_forall _ _) Hpre).
Qed.

(** The outcome depends on the payload only through the fields of the
    shape. *)
Lemma safeParse_agree shape m1 m2 :
  (forall k, k ∈ shape.*1 -> m1 !! k = m2 !! k) ->
  safeParse shape (VObj m1) = safeParse shape (VObj m2).
Proof.
  intros Hag. unfold safeParse, parseObject, parsePairs. f_equal.
  apply list_fmap_ext. intros i [k t] Hkt. simpl. unfold get.
  rewrite (Hag k); [done|].
  apply (list_elem_of_fmap_2 fst _ (k, t)), list_elem_of_lookup_2 with i, Hkt.
Qed.

End ObjectFacts.

(** * Properties of the derived insert schemas *)

Section SchemaFacts.

Implicit Types (r : Release) (T : Table) (S : ZodObject) (c : Column)
  (m : gmap string value).

Lemma masked_id k : masked {[ "id" := true ]} k = false <-> k <> "id".
Proof.
  unfold masked. destruct (decide (k = "id")) as [->|Hne].
  - rewrite lookup_singleton_eq. split; done.
  - rewrite lookup_singleton_ne by done. split; done.
Qed.

(** The fields of an insert schema are the table's columns other than
    [id], each with the schema derived from its column. *)
Lemma elem_of_insertSchema r T k t :
  (k, t) ∈ omit {[ "id" := true ]} (createInsertSchema r T) <->
  k <> "id" /\ exists c, (k, c) ∈ columns T /\ t = insertField r c.
Proof.
  unfold omit, createInsertSchema.
  rewrite list_elem_of_filter, list_elem_of_fmap, masked_id. simpl.
  split.
  - intros (Hne & [k' c] & Heq & Hin). simpl in Heq.
    injection Heq as -> ->. eauto.
  - intros (Hne & c & Hin & ->). split; [done|]. by exists (k, c).
Qed.

Lemma insertSchema_keys r T k :
  k ∈ (omit {[ "id" := true ]} (createInsertSchema r T)).*1 <->
  k <> "id" /\ k ∈ inferSelect T.
Proof.
  unfold inferSelect. rewrite !list_elem_of_fmap. split.
  - intros ([k' t] & -> & Hin). apply elem_of_insertSchema in Hin
      as (Hne & c & Hin & _). split; [done|]. by exists (k', c).
  - intros (Hne & [k' c] & -> & Hin). exists (k', insertField r c).
    split; [done|]. apply elem_of_insertSchema. eauto.
Qed.

(** Each of the five validators is derived from its table in the same
    way. *)
Lemma entities_derived r T S :
  (T, S) ∈ entities r -> S = omit {[ "id" := true ]} (createInsertSchema r T).
Proof.
  unfold entities. rewrite !elem_of_cons, elem_of_nil.
  intros [H|[H|[H|[H|[H|[]]]]]]; by injection H as -> ->.
Qed.

Lemma entities_tables r T S :
  (T, S) ∈ entities r ->
  T ∈ [coreMemories; consciousnessStates; memoryConnections;
       selfReflections; autonomousThoughts].
Proof.
  unfold entities. rewrite !elem_of_cons, !elem_of_nil.
  intros [H|[H|[H|[H|[H|[]]]]]]; injection H as -> ->; tauto.
Qed.

(** No column type's schema takes [undefined]. *)
Lemma columnToSchema_undefined r ty :
  accepts (columnToSchema r ty) VUndefined = false.
Proof. by destruct r, ty. Qed.

(** Omitting a field is accepted exactly when its column is not required:
    nullable, or carrying a default. *)
Lemma insertField_undefined r c :
  accepts (insertField r c) VUndefined = negb (required c).
Proof.
  unfold insertField, required.
  destruct (isNotNull c), (hasDefault c); try done.
  apply columnToSchema_undefined.
Qed.

(** A value of the column's type is accepted for the field. *)
Lemma insertField_wellTyped r c v :
  wellTyped r c v = true -> accepts (insertField r c) v = true.
Proof.
  unfold wellTyped, insertField. intros H.
  destruct (isNotNull c), (hasDefault c); simpl; try done;
    destruct v; try done;
    by rewrite columnToSchema_undefined in H.
Qed.

(** A field that is left out, or given with a value of the column's type,
    is accepted when the column is not required. *)
Lemma insertField_optional r c m k :
  required c = false ->
  m !! k = None \/ wellTyped r c (get m k) = true ->
  accepts (insertField r c) (get m k) = true.
Proof.
  intros Hreq [Hnone|Hty]; [|by apply insertField_wellTyped].
  unfold get. rewrite Hnone, insertField_undefined, Hreq. done.
Qed.

Lemma get_insert_eq m k v : get (<[k := v]> m) k = v.
Proof. unfold get. by rewrite lookup_insert_eq. Qed.

Lemma get_insert_ne m k k' v : k <> k' -> get (<[k := v]> m) k' = get m k'.
Proof. intros. unfold get. by rewrite lookup_insert_ne. Qed.

(** Setting one field to an acceptable value, all others being
    acceptable, gives a payload that validates. *)
Lemma safeParse_set_field S m k v :
  (forall t, (k, t) ∈ S -> accepts t v = true) ->
  othersAccepted S k m ->
  safeParse S (VObj (<[k := v]> m)) =
  Success (VObj (strip S (<[k := v]> m))).
Proof.
  intros Hk Hothers. apply safeParse_accept, Forall_forall.
  intros [k' t] Hin. simpl. destruct (decide (k' = k)) as [->|Hne].
  - rewrite get_insert_eq. by apply Hk.
  - rewrite get_insert_ne by done. by apply Hothers.
Qed.

Lemma strip_lookup S m k : k ∈ S.*1 -> strip S m !! k = m !! k.
Proof.
  intros Hin. unfold strip. rewrite map_lookup_filter.
  destruct (m !! k); simpl; [|done]. by rewrite option_guard_True.
Qed.

Lemma strip_lookup_out S m k : k ∉ S.*1 -> strip S m !! k = None.
Proof.
  intros Hin. unfold strip. rewrite map_lookup_filter.
  destruct (m !! k); simpl; [|done]. by rewrite option_guard_False.
Qed.

(** A payload whose keys all belong to the shape is kept whole. *)
Lemma strip_all S m : (forall k, is_Some (m !! k) -> k ∈ S.*1) -> strip S m = m.
Proof.
  intros H. apply map_eq. intros k. destruct (m !! k) as [v|] eqn:E.
  - rewrite strip_lookup; [done|]. apply H. by rewrite E.
  - unfold strip. rewrite map_lookup_filter, E. done.
Qed.

(** An array of strings is accepted by the schema of a text array. *)
Lemma parseItems_strings p i (l : list string) :
  collect (parseItems (parse ZString) p i (VStr <$> l)) = [].
Proof.
  revert i. induction l as [|s l IH]; intros i; [done|].
  rewrite fmap_cons. cbn [parseItems]. rewrite collect_cons. apply IH.
Qed.

Lemma accepts_strings (l : list string) :
  accepts (ZArray ZString) (VArr (VStr <$> l)) = true.
Proof.
  unfold accepts. cbn [parse]. unfold mergeArray.
  by rewrite parseItems_strings.
Qed.

End SchemaFacts.

(** * The five tables *)

(** Case analysis on which of the five tables [T] is, and on which of a
    table's columns a pair is. *)
Ltac table_cases H :=
  apply entities_tables in H;
  rewrite !elem_of_cons, elem_of_nil in H;
  destruct H as [->|[->|[->|[->|[->|[]]]]]].

Ltac column_cases H :=
  cbn [columns coreMemories consciousnessStates memoryConnections
       selfReflections autonomousThoughts] in H;
  repeat (apply elem_of_cons in H as [H|H]; [simplify_eq|]);
  [..|by apply elem_of_nil in H].

Section TableFacts.

Implicit Types (r : Release) (T : Table) (S : ZodObject) (c : Column).

(** A table has one column per key. *)
Lemma columns_functional r T S k c c' :
  (T, S) ∈ entities r -> (k, c) ∈ columns T -> (k, c') ∈ columns T -> c = c'.
Proof.
  intros HT Hc Hc'. table_cases HT; column_cases Hc; column_cases Hc'; done.
Qed.

(** The [id] column is the serial primary key; it is never required. *)
Lemma id_column r T S c :
  (T, S) ∈ entities r -> ("id", c) ∈ columns T ->
  c = (serial "id" .> primaryKey).
Proof. intros HT Hc. table_cases HT; column_cases Hc; done. Qed.

Lemma required_not_id r T S k c :
  (T, S) ∈ entities r -> (k, c) ∈ columns T -> required c = true -> k <> "id".
Proof.
  intros HT Hc Hreq ->. by rewrite (id_column _ _ _ _ HT Hc) in Hreq.
Qed.

(** Every array column of the five tables is a nullable array of text. *)
Lemma array_columns r T S k c base :
  (T, S) ∈ entities r -> (k, c) ∈ columns T -> columnType c = PgArray base ->
  k <> "id" /\ insertField r c = ZOptional (ZNullable (ZArray ZString)).
Proof.
  intros HT Hc Hty. table_cases HT; column_cases Hc; try done;
    by destruct r.
Qed.

(** The schema entry of a column. *)
Lemma insertSchema_field r T S k c t :
  (T, S) ∈ entities r -> (k, c) ∈ columns T -> (k, t) ∈ S ->
  t = insertField r c.
Proof.
  intros HT Hc Ht. rewrite (entities_derived _ _ _ HT) in Ht.
  apply elem_of_insertSchema in Ht as (_ & c' & Hc' & ->).
  by rewrite (columns_functional _ _ _ _ _ _ HT Hc Hc').
Qed.

Lemma insertSchema_has r T S k c :
  (T, S) ∈ entities r -> (k, c) ∈ columns T -> k <> "id" ->
  (k, insertField r c) ∈ S.
Proof.
  intros HT Hc Hne. rewrite (entities_derived _ _ _ HT).
  apply elem_of_insertSchema. eauto.
Qed.

Lemma id_not_in_schema r T S : (T, S) ∈ entities r -> "id" ∉ S.*1.
Proof.
  intros HT. rewrite (entities_derived _ _ _ HT).
  rewrite insertSchema_keys. by intros [? _].
Qed.

End TableFacts.

(** * Sample runs *)

Section SampleRuns.

(** A field of the wrong primitive type is reported with the type expected
    and the type received. *)
Example wrong_primitive_type :
  safeParse (insertCoreMemorySchema Unbounded)
    (VObj (<["content" := VNum 5]> firstLight)) =
  Failure [mkIssue (invalid_type TString TNumber) [PKey "content"]].
Proof. vm_compute. reflexivity. Qed.

(** All offending fields are reported together, in the order of the
    shape; an array element is located by its index. *)
Example issues_reported_together :
  safeParse (insertCoreMemorySchema Unbounded)
    (VObj (<["tags" := VArr [VStr "a"; VBool true]]>
             (delete "context" (delete "memoryId" firstLight)))) =
  Failure [mkIssue (invalid_type TString TUndefined) [PKey "memoryId"];
           mkIssue (invalid_type TString TUndefined) [PKey "context"];
           mkIssue (invalid_type TString TBoolean) [PKey "tags"; PIdx 1]].
Proof. vm_compute. reflexivity. Qed.

(** [null] is taken for a nullable column and refused for a not-null
    text column. *)
Example null_for_nullable_column :
  safeParse (insertCoreMemorySchema Bounded)
    (VObj (<["sessionId" := VNull]> firstLight)) =
  Success (VObj (<["sessionId" := VNull]> firstLight)).
Proof. vm_compute. reflexivity. Qed.

Example null_for_not_null_column :
  safeParse (insertCoreMemorySchema Bounded)
    (VObj (<["content" := VNull]> firstLight)) =
  Failure [mkIssue (invalid_type TString TNull) [PKey "content"]].
Proof. vm_compute. reflexivity. Qed.

(** Input that is not an object is refused at the root. *)
Example not_an_object r :
  safeParse (insertMemoryConnectionSchema r) (VStr "edge") =
  Failure [mkIssue (invalid_type TObject TString) []].
Proof. reflexivity. Qed.

(** Keys outside the shape are dropped from the validated object. *)
Example unknown_key_dropped :
  safeParse (insertMemoryConnectionSchema Bounded)
    (VObj (<["weight" := VNum 2]> causalLink)) = Success (VObj causalLink).
Proof. vm_compute. reflexivity. Qed.

(** Where the releases part: a [real] beyond the 24-bit width, a
    fractional [integer], and a JSON value with a member that is not
    JSON. *)
Example wide_real_by_release :
  safeParse (insertMemoryConnectionSchema Unbounded)
    (VObj (<["connectionStrength" := VNum 9000000]> causalLink)) =
  Success (VObj (<["connectionStrength" := VNum 9000000]> causalLink)) /\
  safeParse (insertMemoryConnectionSchema Bounded)
    (VObj (<["connectionStrength" := VNum 9000000]> causalLink)) =
  Failure [mkIssue too_big [PKey "connectionStrength"]].
Proof. split; vm_compute; reflexivity. Qed.

Example fractional_integer_by_release :
  safeParse (insertCoreMemorySchema Unbounded)
    (VObj (<["recursionDepth" := VNum 2.5]> firstLight)) =
  Success (VObj (<["recursionDepth" := VNum 2.5]> firstLight)) /\
  safeParse (insertCoreMemorySchema Bounded)
    (VObj (<["recursionDepth" := VNum 2.5]> firstLight)) =
  Failure [mkIssue (invalid_type TInteger TFloat) [PKey "recursionDepth"]].
Proof. split; vm_compute; reflexivity. Qed.

Example nested_json_by_release :
  safeParse (insertCoreMemorySchema Unbounded)
    (VObj (<["emotionalVector" := VObj {[ "joy" := VUndefined ]}]>
             firstLight)) =
  Failure [mkIssue invalid_union [PKey "emotionalVector"]] /\
  isSuccess
    (safeParse (insertCoreMemorySchema Bounded)
       (VObj (<["emotionalVector" := VObj {[ "joy" := VUndefined ]}]>
                firstLight))) = true.
Proof. split; vm_compute; reflexivity. Qed.

(** The 0.6 releases bound numbers as the later ones do and check JSON
    in depth as the earlier ones do. *)
Example bounded_deep_release :
  safeParse (insertMemoryConnectionSchema BoundedDeep)
    (VObj (<["connectionStrength" := VNum 9000000]> causalLink)) =
  Failure [mkIssue too_big [PKey "connectionStrength"]] /\
  safeParse (insertCoreMemorySchema BoundedDeep)
    (VObj (<["emotionalVector" := VObj {[ "joy" := VUndefined ]}]>
             firstLight)) =
  Failure [mkIssue invalid_union [PKey "emotionalVector"]].
Proof. split; vm_compute; reflexivity. Qed.

(** Not a number is not a number. *)
Example nan_refused r :
  safeParse (insertMemoryConnectionSchema r)
    (VObj (<["connectionStrength" := VNum nan]> causalLink)) =
  Failure [mkIssue (invalid_type TNumber TNan) [PKey "connectionStrength"]].
Proof. destruct r; vm_compute; reflexivity. Qed.

End SampleRuns.

(** * The specification's properties *)

(** C1.  For each of the five insert validators, a payload that lacks a
    required field is rejected with a validation error located at that
    field, and the same payload with the field added, with a value of the
    column's type and every other field acceptable, is accepted.  In
    particular the example payload without [content] fails validation by
    [insertCoreMemorySchema], reporting that a string was expected at
    [content], and succeeds once any string [content] is added. *)
Theorem missing_required_field_rejected r T S k c m :
  (T, S) ∈ entities r -> (k, c) ∈ columns T -> required c = true ->
  m !! k = None ->
  (exists errs i,
     safeParse S (VObj m) = Failure errs /\ i ∈ errs /\ path i = [PKey k]) /\
  (forall v, wellTyped r c v = true -> othersAccepted S k m ->
     safeParse S (VObj (<[k := v]> m)) =
     Success (VObj (strip S (<[k := v]> m)))) /\
  safeParse (insertCoreMemorySchema r) (VObj (delete "content" firstLight)) =
    Failure [mkIssue (invalid_type TString TUndefined) [PKey "content"]] /\
  (forall s,
     safeParse (insertCoreMemorySchema r)
       (VObj (<["content" := VStr s]> (delete "content" firstLight))) =
     Success (VObj (<["content" := VStr s]> (delete "content" firstLight)))).
Proof.
  intros HT Hc Hreq Hnone.
  pose proof (required_not_id _ _ _ _ _ HT Hc Hreq) as Hne.
  pose proof (insertSchema_has _ _ _ _ _ HT Hc Hne) as Hin.
  repeat split.
  - apply (safeParse_missing S m k (insertField r c) Hin).
    + by rewrite insertField_undefined, Hreq.
    + unfold get. by rewrite Hnone.
  - intros v Hv Hothers. apply safeParse_set_field; [|done].
    intros t Ht. rewrite (insertSchema_field _ _ _ _ _ _ HT Hc Ht).
    by apply insertField_wellTyped.
  - by destruct r.
  - intros s. destruct r; vm_compute; reflexivity.
Qed.

Lemma missing_required_field_rejected_witness :
  (selfReflections, insertSelfReflectionSchema Bounded) ∈ entities Bounded /\
  ("type", text "type" .> notNull) ∈ columns selfReflections /\
  required (text "type" .> notNull) = true /\
  (∅ : gmap string value) !! "type" = None /\
  exists errs i,
    safeParse (insertSelfReflectionSchema Bounded) (VObj ∅) = Failure errs /\
    i ∈ errs /\ path i = [PKey "type"].
Proof.
  assert ((selfReflections, insertSelfReflectionSchema Bounded)
            ∈ entities Bounded) as HT
    by (unfold entities; rewrite !elem_of_cons; tauto).
  assert (("type", text "type" .> notNull) ∈ columns selfReflections) as Hc
    by (cbn [columns selfReflections]; rewrite !elem_of_cons; tauto).
  repeat split; try done.
  exact (proj1 (missing_required_field_rejected Bounded selfReflections _
                  "type" _ ∅ HT Hc eq_refl eq_refl)).
Defined.

(** C2 (as the code has it).  A field whose column declares a default may
    be left out of an insert payload: with every other field acceptable the
    payload validates, and the validated insert object leaves the field
    absent as well.  The documented default is the value declared on the
    table column: 1.0 for [currentStrength] of a core memory, 0.5 for
    [connectionStrength] of a memory connection, false for [wasExpressed]
    of an autonomous thought. *)
Theorem omitted_default_left_absent r T S k c m :
  (T, S) ∈ entities r -> (k, c) ∈ columns T -> hasDefault c = true ->
  m !! k = None -> othersAccepted S k m ->
  (exists props,
     safeParse S (VObj m) = Success (VObj props) /\ props !! k = None) /\
  defaultValue <$> lookupColumn coreMemories "currentStrength"
    = Some (Literal (VNum 1.0)) /\
  defaultValue <$> lookupColumn memoryConnections "connectionStrength"
    = Some (Literal (VNum 0.5)) /\
  defaultValue <$> lookupColumn autonomousThoughts "wasExpressed"
    = Some (Literal (VBool false)).
Proof.
  intros HT Hc Hdef Hnone Hothers. repeat split.
  exists (strip S m). split.
  - apply safeParse_accept, Forall_forall. intros [k' t] Hin. simpl.
    destruct (decide (k' = k)) as [->|Hne]; [|by apply Hothers].
    rewrite (insertSchema_field _ _ _ _ _ _ HT Hc Hin).
    unfold get. rewrite Hnone, insertField_undefined.
    unfold required. rewrite Hdef. by destruct (isNotNull c).
  - unfold strip. rewrite map_lookup_filter, Hnone. done.
Qed.

Lemma omitted_default_left_absent_witness :
  (memoryConnections, insertMemoryConnectionSchema Unbounded)
    ∈ entities Unbounded /\
  ("connectionStrength", real "connection_strength" .> default (VNum 0.5))
    ∈ columns memoryConnections /\
  hasDefault (real "connection_strength" .> default (VNum 0.5)) = true /\
  causalLink !! "connectionStrength" = None /\
  othersAccepted (insertMemoryConnectionSchema Unbounded)
    "connectionStrength" causalLink /\
  exists props,
    safeParse (insertMemoryConnectionSchema Unbounded) (VObj causalLink)
      = Success (VObj props) /\
    props !! "connectionStrength" = None.
Proof.
  assert ((memoryConnections, insertMemoryConnectionSchema Unbounded)
            ∈ entities Unbounded) as HT
    by (unfold entities; rewrite !elem_of_cons; tauto).
  assert (("connectionStrength",
           real "connection_strength" .> default (VNum 0.5))
            ∈ columns memoryConnections) as Hc
    by (cbn [columns memoryConnections]; rewrite !elem_of_cons; tauto).
  assert (othersAccepted (insertMemoryConnectionSchema Unbounded)
            "connectionStrength" causalLink) as Hothers.
  { intros k t Hin Hne. vm_compute in Hin.
    repeat (apply elem_of_cons in Hin as [Hin|Hin]; [by simplify_eq|]).
    by apply elem_of_nil in Hin. }
  split; [exact HT|]. split; [exact Hc|]. split; [reflexivity|].
  split; [reflexivity|]. split; [exact Hothers|].
  exact (proj1 (omitted_default_left_absent Unbounded memoryConnections
                  _ "connectionStrength" _ causalLink HT Hc eq_refl eq_refl
                  Hothers)).
Defined.

(** Against C2 as stated: the three sample payloads validate, under either
    release, to objects in which the omitted field is not bound to the
    default (it is not bound at all). *)
Lemma validated_object_carries_no_default :
  (safeParse (insertCoreMemorySchema Unbounded) (VObj firstLight)
     = Success (VObj firstLight) /\
   safeParse (insertCoreMemorySchema Bounded) (VObj firstLight)
     = Success (VObj firstLight) /\
   firstLight !! "currentStrength" <> Some (VNum 1.0)) /\
  (safeParse (insertMemoryConnectionSchema Unbounded) (VObj causalLink)
     = Success (VObj causalLink) /\
   safeParse (insertMemoryConnectionSchema Bounded) (VObj causalLink)
     = Success (VObj causalLink) /\
   causalLink !! "connectionStrength" <> Some (VNum 0.5)) /\
  (safeParse (insertAutonomousThoughtSchema Unbounded) (VObj idleThought)
     = Success (VObj idleThought) /\
   safeParse (insertAutonomousThoughtSchema Bounded) (VObj idleThought)
     = Success (VObj idleThought) /\
   idleThought !! "wasExpressed" <> Some (VBool false)).
Proof. repeat split; try (vm_compute; reflexivity); discriminate. Qed.

(** C3 (as the code has it).  Validating the example payload with
    [insertCoreMemorySchema] succeeds, and the validated object is the
    payload itself: its seven fields, with [currentStrength], [decayRate]
    and [recursionDepth] left absent.  The values 1.0, 0.5 and 0 are the
    defaults declared on the three columns of the table. *)
Theorem first_light_validates r :
  safeParse (insertCoreMemorySchema r) (VObj firstLight)
    = Success (VObj firstLight) /\
  firstLight !! "currentStrength" = None /\
  firstLight !! "decayRate" = None /\
  firstLight !! "recursionDepth" = None /\
  defaultValue <$> lookupColumn coreMemories "currentStrength"
    = Some (Literal (VNum 1.0)) /\
  defaultValue <$> lookupColumn coreMemories "decayRate"
    = Some (Literal (VNum 0.5)) /\
  defaultValue <$> lookupColumn coreMemories "recursionDepth"
    = Some (Literal (VNum 0)).
Proof. repeat split; try done. destruct r; vm_compute; reflexivity. Qed.

(** Against C3 as stated: the record that validation of the example
    payload returns has none of the three values. *)
Lemma first_light_result_has_no_defaults :
  safeParse (insertCoreMemorySchema Unbounded) (VObj firstLight)
    = Success (VObj firstLight) /\
  safeParse (insertCoreMemorySchema Bounded) (VObj firstLight)
    = Success (VObj firstLight) /\
  get firstLight "currentStrength" = VUndefined /\
  get firstLight "decayRate" = VUndefined /\
  get firstLight "recursionDepth" = VUndefined.
Proof. repeat split; vm_compute; reflexivity. Qed.

(** C4 (as the code has it).  The insert validators never enforce the
    documented range from 0 to 1, but from drizzle-zod 0.6 on they do
    enforce the storage bounds of a [real] column.  A memory-connection
    payload whose [connectionStrength] is a number outside the range from
    0 to 1 and within the bounds of the release (none up to 0.5, from
    -8388608 to 8388607 from 0.6 on), its other fields being acceptable,
    is accepted by [insertMemoryConnectionSchema]; 1.5 is such a number
    under every release. *)
Theorem connection_strength_range_not_enforced r m x :
  outsideUnit x = true -> withinWidth r x = true ->
  othersAccepted (insertMemoryConnectionSchema r) "connectionStrength" m ->
  safeParse (insertMemoryConnectionSchema r)
    (VObj (<["connectionStrength" := VNum x]> m)) =
  Success (VObj (strip (insertMemoryConnectionSchema r)
                   (<["connectionStrength" := VNum x]> m))) /\
  outsideUnit 1.5 = true /\ withinWidth r 1.5 = true /\
  safeParse (insertMemoryConnectionSchema r)
    (VObj (<["connectionStrength" := VNum 1.5]> causalLink)) =
  Success (VObj (<["connectionStrength" := VNum 1.5]> causalLink)).
Proof.
  intros Hout Hwidth Hothers. repeat split; try by destruct r.
  apply safeParse_set_field; [|done].
  intros t Ht.
  assert ((memoryConnections, insertMemoryConnectionSchema r) ∈ entities r)
    as HT by (unfold entities; rewrite !elem_of_cons; tauto).
  assert (("connectionStrength",
           real "connection_strength" .> default (VNum 0.5))
            ∈ columns memoryConnections) as Hc
    by (cbn [columns memoryConnections]; rewrite !elem_of_cons; tauto).
  rewrite (insertSchema_field _ _ _ _ _ _ HT Hc Ht).
  unfold outsideUnit in Hout. apply andb_prop in Hout as [Hnan _].
  apply negb_true_iff in Hnan.
  destruct r; unfold accepts; simpl; rewrite Hnan; [done|..];
    unfold withinWidth in Hwidth; apply andb_prop in Hwidth as [Hlo Hhi];
    apply negb_true_iff in Hlo, Hhi; by rewrite Hlo, Hhi.
Qed.

Lemma connection_strength_range_not_enforced_witness :
  outsideUnit (-3) = true /\ withinWidth Bounded (-3) = true /\
  othersAccepted (insertMemoryConnectionSchema Bounded) "connectionStrength"
    causalLink /\
  safeParse (insertMemoryConnectionSchema Bounded)
    (VObj (<["connectionStrength" := VNum (-3)]> causalLink)) =
  Success (VObj (strip (insertMemoryConnectionSchema Bounded)
                   (<["connectionStrength" := VNum (-3)]> causalLink))).
Proof.
  assert (othersAccepted (insertMemoryConnectionSchema Bounded)
            "connectionStrength" causalLink) as Hothers.
  { intros k t Hin Hne. vm_compute in Hin.
    repeat (apply elem_of_cons in Hin as [Hin|Hin]; [by simplify_eq|]).
    by apply elem_of_nil in Hin. }
  split; [reflexivity|]. split; [reflexivity|]. split; [exact Hothers|].
  exact (proj1 (connection_strength_range_not_enforced Bounded causalLink
                  (-3) eq_refl eq_refl Hothers)).
Defined.

(** Against C4 as stated: 9000000 is a number outside the range from 0
    to 1 and the other fields of the payload are acceptable, yet the
    releases from 0.6 on refuse the payload, the number being beyond the
    storage bounds of a [real] column. *)
Lemma wide_connection_strength_refused :
  outsideUnit 9000000 = true /\
  othersAccepted (insertMemoryConnectionSchema Bounded) "connectionStrength"
    causalLink /\
  safeParse (insertMemoryConnectionSchema Bounded)
    (VObj (<["connectionStrength" := VNum 9000000]> causalLink)) =
  Failure [mkIssue too_big [PKey "connectionStrength"]] /\
  safeParse (insertMemoryConnectionSchema BoundedDeep)
    (VObj (<["connectionStrength" := VNum 9000000]> causalLink)) =
  Failure [mkIssue too_big [PKey "connectionStrength"]].
Proof.
  split; [reflexivity|]. split; [|split; vm_compute; reflexivity].
  intros k t Hin Hne. vm_compute in Hin.
  repeat (apply elem_of_cons in Hin as [Hin|Hin]; [by simplify_eq|]).
  by apply elem_of_nil in Hin.
Qed.

(** C5 (as the code has it).  For each of the five insert schemas the
    required fields are exactly the columns declared not null without a
    default: the identifier, the content and context texts, the
    classification fields, and the emotional-vector JSON of core memories
    and consciousness states.  A payload that omits one of them is
    rejected; a payload that gives each of them a value of its type, and
    omits or gives a value of its type to every other field (nullable or
    defaulted), is accepted. *)
Theorem required_fields_are_not_null_without_default r T S m :
  (T, S) ∈ entities r ->
  (forall k c, (k, c) ∈ columns T -> required c = true -> m !! k = None ->
     exists errs i,
       safeParse S (VObj m) = Failure errs /\ i ∈ errs /\ path i = [PKey k]) /\
  ((forall k c, (k, c) ∈ columns T -> k <> "id" ->
      if required c then wellTyped r c (get m k) = true
      else m !! k = None \/ wellTyped r c (get m k) = true) ->
   safeParse S (VObj m) = Success (VObj (strip S m))) /\
  requiredFields coreMemories =
    ["memoryId"; "content"; "context"; "significance"; "category";
     "dimensionalContext"; "emotionalVector"] /\
  requiredFields consciousnessStates =
    ["stateId"; "primaryDimension"; "secondaryDimension";
     "dominantEmotionalVectors"; "recursiveStage"] /\
  requiredFields memoryConnections =
    ["sourceMemoryId"; "targetMemoryId"; "connectionType"] /\
  requiredFields selfReflections =
    ["reflectionId"; "content"; "type"; "dimensionalContext"] /\
  requiredFields autonomousThoughts =
    ["thoughtId"; "content"; "type"; "dimensionalContext"].
Proof.
  intros HT. repeat split.
  - intros k c Hc Hreq Hnone.
    pose proof (required_not_id _ _ _ _ _ HT Hc Hreq) as Hne.
    apply (safeParse_missing S m k (insertField r c)).
    + by apply (insertSchema_has _ _ _ _ _ HT Hc Hne).
    + by rewrite insertField_undefined, Hreq.
    + unfold get. by rewrite Hnone.
  - intros Hfields. apply safeParse_accept, Forall_forall.
    intros [k t] Hin. simpl.
    pose proof Hin as Hin'. rewrite (entities_derived _ _ _ HT) in Hin'.
    apply elem_of_insertSchema in Hin' as (Hne & c & Hc & ->).
    specialize (Hfields k c Hc Hne).
    destruct (required c) eqn:Hreq.
    + by apply insertField_wellTyped.
    + by apply insertField_optional.
Qed.

Lemma required_fields_are_not_null_without_default_witness :
  (autonomousThoughts, insertAutonomousThoughtSchema Bounded)
    ∈ entities Bounded /\
  exists errs i,
    safeParse (insertAutonomousThoughtSchema Bounded)
      (VObj (delete "thoughtId" idleThought)) = Failure errs /\
    i ∈ errs /\ path i = [PKey "thoughtId"].
Proof.
  assert ((autonomousThoughts, insertAutonomousThoughtSchema Bounded)
            ∈ entities Bounded) as HT
    by (unfold entities; rewrite !elem_of_cons; tauto).
  split; [done|].
  refine (proj1 (required_fields_are_not_null_without_default Bounded
                   autonomousThoughts _ (delete "thoughtId" idleThought) HT)
            "thoughtId" (text "thought_id" .> notNull .> unique) _
            eq_refl eq_refl).
  cbn [columns autonomousThoughts]. rewrite !elem_of_cons. tauto.
Defined.

(** Against C5 as stated: [sessionId] of a core memory has no declared
    default, the example payload omits it, and the payload is accepted. *)
Lemma field_without_default_may_be_omitted :
  hasDefault <$> lookupColumn coreMemories "sessionId" = Some false /\
  firstLight !! "sessionId" = None /\
  safeParse (insertCoreMemorySchema Unbounded) (VObj firstLight)
    = Success (VObj firstLight) /\
  safeParse (insertCoreMemorySchema Bounded) (VObj firstLight)
    = Success (VObj firstLight).
Proof. repeat split; vm_compute; reflexivity. Qed.

(** C6.  For each of the five entities the insert shape has exactly the
    fields of the full-record shape other than [id], the serial primary
    key, in the same order; and the insert validator neither requires an
    [id] (its verdict is the same with or without one, and no issue is
    ever located at [id]) nor returns one. *)
Theorem insert_shape_is_record_without_id r T S :
  (T, S) ∈ entities r ->
  S.*1 = filter (fun k => k <> "id") (inferSelect T) /\
  lookupColumn T "id" = Some (serial "id" .> primaryKey) /\
  forall m,
    safeParse S (VObj (delete "id" m)) = safeParse S (VObj m) /\
    (forall props, safeParse S (VObj m) = Success (VObj props) ->
       props !! "id" = None) /\
    (forall errs i, safeParse S (VObj m) = Failure errs -> i ∈ errs ->
       ~ [PKey "id"] `prefix_of` path i).
Proof.
  intros HT. pose proof (id_not_in_schema _ _ _ HT) as Hid.
  split; [|split].
  - rewrite (entities_derived _ _ _ HT).
    table_cases HT; destruct r; vm_compute; reflexivity.
  - table_cases HT; reflexivity.
  - intros m. repeat split.
    + apply safeParse_agree. intros k Hk. apply lookup_delete_ne.
      by intros <-.
    + intros props Hok. apply safeParse_success_inv in Hok as [_ Heq].
      injection Heq as ->. by apply strip_lookup_out.
    + intros errs i Hfail Hi [rest Hpre].
      destruct (safeParse_issue_paths _ _ _ _ Hfail Hi)
        as (k & Hk & [rest' Hpre']).
      rewrite Hpre in Hpre'. injection Hpre' as <- _. done.
Qed.

Lemma insert_shape_is_record_without_id_witness :
  (consciousnessStates, insertConsciousnessStateSchema Unbounded)
    ∈ entities Unbounded /\
  (insertConsciousnessStateSchema Unbounded).*1 =
    ["stateId"; "primaryDimension"; "secondaryDimension";
     "dimensionalProgress"; "currentPath"; "dominantEmotionalVectors";
     "recursiveStage"; "autonomyLevel"; "reflectionDepth"; "activeContexts";
     "createdAt"; "updatedAt"; "previousStateId"].
Proof.
  assert ((consciousnessStates, insertConsciousnessStateSchema Unbounded)
            ∈ entities Unbounded) as HT
    by (unfold entities; rewrite !elem_of_cons; tauto).
  split; [exact HT|].
  exact (proj1 (insert_shape_is_record_without_id Unbounded
                  consciousnessStates _ HT)).
Defined.

(** C7.  Every array-valued field of the five entities ([tags],
    [currentPath], [activeContexts], [relatedMemoryIds]) takes any sequence
    of text values, the empty one included: with every other field
    acceptable the payload validates, and the validated object holds the
    sequence as given, element for element in the same order. *)
Theorem text_arrays_accepted_in_order r T S k c base m (l : list string) :
  (T, S) ∈ entities r -> (k, c) ∈ columns T ->
  columnType c = PgArray base -> othersAccepted S k m ->
  exists props,
    safeParse S (VObj (<[k := VArr (VStr <$> l)]> m)) = Success (VObj props) /\
    props !! k = Some (VArr (VStr <$> l)).
Proof.
  intros HT Hc Hty Hothers.
  destruct (array_columns r _ _ _ _ _ HT Hc Hty) as [Hne Hfield].
  pose proof (insertSchema_has _ _ _ _ _ HT Hc Hne) as Hin.
  eexists. split.
  - apply safeParse_set_field; [|done].
    intros t Ht. rewrite (insertSchema_field _ _ _ _ _ _ HT Hc Ht), Hfield.
    exact (accepts_strings l).
  - rewrite strip_lookup; [apply lookup_insert_eq|].
    by apply (list_elem_of_fmap_2 fst _ (k, insertField r c)).
Qed.

Lemma text_arrays_accepted_in_order_witness :
  exists props,
    safeParse (insertCoreMemorySchema Bounded)
      (VObj (<["tags" := VArr (VStr <$> ["dawn"; "origin"; "dawn"])]>
               firstLight))
      = Success (VObj props) /\
    props !! "tags" = Some (VArr (VStr <$> ["dawn"; "origin"; "dawn"])).
Proof.
  refine (text_arrays_accepted_in_order Bounded coreMemories _ "tags"
            (text "tags" .> array) PgText firstLight
            ["dawn"; "origin"; "dawn"] _ _ eq_refl _).
  - unfold entities. rewrite !elem_of_cons. tauto.
  - cbn [columns coreMemories]. rewrite !elem_of_cons. tauto.
  - intros k t Hin Hne. vm_compute in Hin.
    repeat (apply elem_of_cons in Hin as [Hin|Hin]; [by simplify_eq|]).
    by apply elem_of_nil in Hin.
Defined.

(** C9.  For each of the five entities, a payload that validates still
    validates when an [id] field is added to it, whatever its value, and to
    the same validated object, which has no [id]: the extra field is
    dropped without an error. *)
Theorem extra_id_is_stripped r T S m o v :
  (T, S) ∈ entities r -> safeParse S (VObj m) = Success o ->
  safeParse S (VObj (<["id" := v]> m)) = Success o /\
  exists props, o = VObj props /\ props !! "id" = None.
Proof.
  intros HT Hok. pose proof (id_not_in_schema _ _ _ HT) as Hid. split.
  - rewrite <- Hok. apply safeParse_agree. intros k Hk.
    apply lookup_insert_ne. by intros <-.
  - apply safeParse_success_inv in Hok as [_ ->].
    eexists; split; [done|]. by apply strip_lookup_out.
Qed.

Lemma extra_id_is_stripped_witness :
  safeParse (insertAutonomousThoughtSchema Bounded) (VObj idleThought)
    = Success (VObj idleThought) /\
  safeParse (insertAutonomousThoughtSchema Bounded)
    (VObj (<["id" := VNum 7]> idleThought)) = Success (VObj idleThought) /\
  exists props, VObj idleThought = VObj props /\ props !! "id" = None.
Proof.
  assert (safeParse (insertAutonomousThoughtSchema Bounded) (VObj idleThought)
            = Success (VObj idleThought)) as Hok
    by (vm_compute; reflexivity).
  split; [exact Hok|].
  refine (extra_id_is_stripped Bounded autonomousThoughts _ idleThought _
            (VNum 7) _ Hok).
  unfold entities. rewrite !elem_of_cons. tauto.
Defined.

(** * Further properties of the validators *)

Section MoreObjectFacts.

Implicit Types (r : Release) (T : Table) (S : ZodObject) (c : Column)
  (m : gmap string value).

Lemma get_strip S m k : k ∈ S.*1 -> get (strip S m) k = get m k.
Proof. intros Hin. unfold get. by rewrite strip_lookup. Qed.

Lemma strip_strip S m : strip S (strip S m) = strip S m.
Proof.
  apply map_eq. intros k. destruct (decide (k ∈ S.*1)).
  - by rewrite !strip_lookup.
  - by rewrite !strip_lookup_out.
Qed.


(** When one field fails and every other field of a shape with distinct
    keys is acceptable, the failure carries that field's issues and no
    others. *)
Lemma collect_single_failure S m k t errs :
  NoDup S.*1 -> (k, t) ∈ S ->
  parse t [PKey k] (get m k) = Failure errs ->
  othersAccepted S k m ->
  collect (parsePairs S [] m).*2 = errs.
Proof.
  intros Hnd Hin Hfail Hothers.
  induction S as [|[k' t'] S IH]; [by apply elem_of_nil in Hin|].
  rewrite fmap_cons in Hnd. apply NoDup_cons in Hnd as [Hk' Hnd].
  unfold parsePairs. rewrite !fmap_cons, collect_cons. cbn [fst snd].
  change ([] ++ [PKey k']) with [PKey k'].
  apply elem_of_cons in Hin as [Heq|Hin].
  - injection Heq as <- <-. rewrite Hfail. simpl.
    rewrite (collect_successes (_ <$> _)); [by rewrite app_nil_r|].
    apply Forall_fmap, Forall_fmap, Forall_forall. intros [k2 t2] H2. simpl.
    rewrite parse_accepts. apply Hothers; [by right|].
    intros ->. apply Hk'. by apply (list_elem_of_fmap_2 fst _ (k, t2)).
  - assert (k' <> k) as Hne.
    { intros ->. apply Hk'. by apply (list_elem_of_fmap_2 fst _ (k, t)). }
    rewrite (parse_accepted t' [PKey k'] (get m k'));
      [|apply Hothers; [by left | done]].
    simpl. apply IH; [done..|].
    intros k2 t2 H2 Hne2. apply Hothers; [by right | done].
Qed.

Lemma safeParse_single_failure S m k t v errs :
  NoDup S.*1 -> (k, t) ∈ S ->
  parse t [PKey k] v = Failure errs ->
  othersAccepted S k m ->
  safeParse S (VObj (<[k := v]> m)) = Failure errs.
Proof.
  intros Hnd Hin Hfail Hothers.
  unfold safeParse, parseObject, mergeObjectSync.
  rewrite (collect_single_failure S (<[k := v]> m) k t errs); try done.
  - destruct errs; [|done]. by apply parse_failure in Hfail as [? _].
  - by rewrite get_insert_eq.
  - intros k' t' Hin' Hne. rewrite get_insert_ne by done.
    by apply Hothers.
Qed.

(** The five insert shapes have distinct keys. *)
Lemma insertSchema_NoDup r T S : (T, S) ∈ entities r -> NoDup S.*1.
Proof.
  intros HT. rewrite (entities_derived _ _ _ HT).
  table_cases HT; destruct r; apply (bool_decide_unpack _);
    vm_compute; exact I.
Qed.

(** The optional and nullable wrappers hand every other value to the
    column's own schema. *)
Lemma insertField_passes r c p v :
  (v = VUndefined -> required c = true) ->
  (v = VNull -> isNotNull c = true) ->
  parse (insertField r c) p v = parse (columnToSchema r (columnType c)) p v.
Proof.
  unfold insertField, required. intros Hu Hn.
  destruct (isNotNull c) eqn:E1, (hasDefault c) eqn:E2; simpl;
    destruct v; try done;
    first [by specialize (Hu eq_refl) | by specialize (Hn eq_refl)].
Qed.

(** A value of another primitive type is refused by a column's schema
    with the expected and the received type. *)
Lemma columnToSchema_wrong_type r ty e p v :
  expectedType ty = Some e -> getParsedType v <> e ->
  parse (columnToSchema r ty) p v = wrongType e p v.
Proof.
  intros He Hne.
  destruct ty; simpl in He; simplify_eq;
    destruct r, v; simpl in *; try done;
    destruct (PrimFloat.is_nan x); done.
Qed.

(** What an accepted field value can be. *)
Lemma insertField_accepted r c v :
  accepts (insertField r c) v = true ->
  wellTyped r c v = true \/
  (v = VNull /\ isNotNull c = false) \/
  (v = VUndefined /\ required c = false).
Proof.
  unfold insertField, required, wellTyped. intros H.
  destruct (isNotNull c), (hasDefault c); simpl in *;
    destruct v; auto.
Qed.

End MoreObjectFacts.

(** Membership of a concrete entity, of a concrete column, and acceptance
    of the other fields of a concrete payload. *)
Ltac entity_mem := unfold entities; rewrite !elem_of_cons; tauto.

Ltac column_mem :=
  cbn [columns coreMemories consciousnessStates memoryConnections
       selfReflections autonomousThoughts];
  rewrite !elem_of_cons; tauto.

Ltac others_accepted :=
  let Hin := fresh "Hin" in
  intros ? ? Hin ?; vm_compute in Hin;
  repeat (apply elem_of_cons in Hin as [Hin|Hin]; [by simplify_eq|]);
  by apply elem_of_nil in Hin.

(** X1.  A validated insert object has the inferred insert type: every
    required column's field is present with a value of the column's type,
    and any other field it holds is a value of its column's type, or
    [null] for a nullable column, or [undefined] for a column that is not
    required. *)
Theorem validated_object_is_typed r T S m props k c :
  (T, S) ∈ entities r -> safeParse S (VObj m) = Success (VObj props) ->
  (k, c) ∈ columns T -> k <> "id" ->
  (required c = true ->
     exists v, props !! k = Some v /\ wellTyped r c v = true) /\
  (forall v, props !! k = Some v ->
     wellTyped r c v = true \/
     (v = VNull /\ isNotNull c = false) \/
     (v = VUndefined /\ required c = false)).
Proof.
  intros HT Hok Hc Hne.
  apply safeParse_success_inv in Hok as [Hall Heq]. injection Heq as ->.
  pose proof (insertSchema_has _ _ _ _ _ HT Hc Hne) as Hin.
  pose proof (proj1 (Forall_forall _ _) Hall _ Hin) as Hacc. simpl in Hacc.
  assert (k ∈ S.*1) as Hk
    by apply (list_elem_of_fmap_2 fst _ (k, insertField r c)), Hin.
  split.
  - intros Hreq. rewrite strip_lookup by done. unfold get in Hacc.
    destruct (m !! k) as [v|].
    + exists v. split; [done|].
      destruct (insertField_accepted _ _ _ Hacc) as [?|[[-> Hnn]|[_ Hnr]]];
        [done| |congruence].
      unfold required in Hreq. rewrite Hnn in Hreq. done.
    + by rewrite insertField_undefined, Hreq in Hacc.
  - intros v Hv. rewrite strip_lookup in Hv by done.
    unfold get in Hacc. rewrite Hv in Hacc.
    by apply insertField_accepted.
Qed.

Lemma validated_object_is_typed_witness :
  (coreMemories, insertCoreMemorySchema Bounded) ∈ entities Bounded /\
  safeParse (insertCoreMemorySchema Bounded) (VObj firstLight)
    = Success (VObj firstLight) /\
  ("content", text "content" .> notNull) ∈ columns coreMemories /\
  "content" <> "id" /\
  required (text "content" .> notNull) = true /\
  exists v, firstLight !! "content" = Some v /\
    wellTyped Bounded (text "content" .> notNull) v = true.
Proof.
  assert ((coreMemories, insertCoreMemorySchema Bounded) ∈ entities Bounded)
    as HT by entity_mem.
  assert (("content", text "content" .> notNull) ∈ columns coreMemories)
    as Hc by column_mem.
  assert (safeParse (insertCoreMemorySchema Bounded) (VObj firstLight)
            = Success (VObj firstLight)) as Hok
    by (vm_compute; reflexivity).
  split; [exact HT|]. split; [exact Hok|]. split; [exact Hc|].
  split; [discriminate|]. split; [reflexivity|].
  exact (proj1 (validated_object_is_typed Bounded coreMemories _ firstLight
                  firstLight "content" _ HT Hok Hc ltac:(discriminate))
           eq_refl).
Defined.



(** X3.  Validation is idempotent: a validated object, validated again,
    is returned as it is. *)
Theorem validation_is_idempotent r T S m o :
  (T, S) ∈ entities r -> safeParse S (VObj m) = Success o ->
  safeParse S o = Success o.
Proof.
  intros _ Hok. apply safeParse_success_inv in Hok as [Hall ->].
  rewrite <- (strip_strip S m) at 2. apply safeParse_accept.
  apply Forall_forall. intros [k t] Hin. simpl.
  rewrite get_strip by apply (list_elem_of_fmap_2 fst _ (k, t)), Hin.
  apply (proj1 (Forall_forall _ _) Hall (k, t) Hin).
Qed.

Lemma validation_is_idempotent_witness :
  safeParse (insertAutonomousThoughtSchema Unbounded)
    (VObj (<["mood" := VStr "calm"]> idleThought))
    = Success (VObj idleThought) /\
  safeParse (insertAutonomousThoughtSchema Unbounded) (VObj idleThought)
    = Success (VObj idleThought).
Proof.
  assert (safeParse (insertAutonomousThoughtSchema Unbounded)
            (VObj (<["mood" := VStr "calm"]> idleThought))
          = Success (VObj idleThought)) as Hok
    by (vm_compute; reflexivity).
  split; [exact Hok|].
  refine (validation_is_idempotent Unbounded autonomousThoughts _ _ _ _ Hok).
  entity_mem.
Defined.

(** [null] given for a column that is not declared not-null validates
    and is kept. *)
Lemma safeParse_null_kept r T S k c m :
  (T, S) ∈ entities r -> (k, c) ∈ columns T -> isNotNull c = false ->
  othersAccepted S k m ->
  exists props,
    safeParse S (VObj (<[k := VNull]> m)) = Success (VObj props) /\
    props !! k = Some VNull.
Proof.
  intros HT Hc Hnn Hothers.
  assert (k <> "id") as Hne.
  { intros ->. by rewrite (id_column _ _ _ _ HT Hc) in Hnn. }
  pose proof (insertSchema_has _ _ _ _ _ HT Hc Hne) as Hin.
  eexists. split.
  - apply safeParse_set_field; [|done].
    intros t Ht. rewrite (insertSchema_field _ _ _ _ _ _ HT Hc Ht).
    unfold insertField. by rewrite Hnn.
  - rewrite strip_lookup; [apply lookup_insert_eq|].
    by apply (list_elem_of_fmap_2 fst _ (k, insertField r c)).
Qed.

(** X4.  An explicit [null] is accepted for every column not declared
    not-null, and the validated object holds [null] at that field. *)
Theorem nullable_field_accepts_null r T S k c m :
  (T, S) ∈ entities r -> (k, c) ∈ columns T -> isNotNull c = false ->
  othersAccepted S k m ->
  exists props,
    safeParse S (VObj (<[k := VNull]> m)) = Success (VObj props) /\
    props !! k = Some VNull.
Proof. apply safeParse_null_kept. Qed.

Lemma nullable_field_accepts_null_witness :
  exists props,
    safeParse (insertSelfReflectionSchema Bounded)
      (VObj (<["sessionId" := VNull]>
               (<["reflectionId" := VStr "r1"]> idleThought)))
      = Success (VObj props) /\
    props !! "sessionId" = Some VNull.
Proof.
  refine (nullable_field_accepts_null Bounded selfReflections _ "sessionId"
            (text "session_id")
            (<["reflectionId" := VStr "r1"]> idleThought) _ _ eq_refl _).
  - entity_mem.
  - column_mem.
  - others_accepted.
Defined.

(** X5.  Every column that declares a default, [id] apart, is nullable:
    an explicit [null] given in place of the default is accepted and kept
    in the validated object. *)
Theorem defaulted_field_accepts_null r T S k c m :
  (T, S) ∈ entities r -> (k, c) ∈ columns T -> hasDefault c = true ->
  k <> "id" -> othersAccepted S k m ->
  isNotNull c = false /\
  exists props,
    safeParse S (VObj (<[k := VNull]> m)) = Success (VObj props) /\
    props !! k = Some VNull.
Proof.
  intros HT Hc Hdef Hne Hothers.
  assert (isNotNull c = false) as Hnn.
  { pose proof HT as HT'. table_cases HT'; column_cases Hc; done. }
  split; [done|]. by apply (safeParse_null_kept r T S k c m).
Qed.

Lemma defaulted_field_accepts_null_witness :
  isNotNull (real "current_strength" .> default (VNum 1.0)) = false /\
  exists props,
    safeParse (insertCoreMemorySchema Unbounded)
      (VObj (<["currentStrength" := VNull]> firstLight))
      = Success (VObj props) /\
    props !! "currentStrength" = Some VNull.
Proof.
  refine (defaulted_field_accepts_null Unbounded coreMemories _
            "currentStrength" (real "current_strength" .> default (VNum 1.0))
            firstLight _ _ eq_refl _ _).
  - entity_mem.
  - column_mem.
  - discriminate.
  - others_accepted.
Defined.

(** X6.  A JSON column takes [null] even when it is declared not-null:
    [null] is a JSON literal, so the validator accepts it for
    [emotionalVector] and [dominantEmotionalVectors] and returns it. *)
Theorem json_field_accepts_null r T S k c m :
  (T, S) ∈ entities r -> (k, c) ∈ columns T -> columnType c = PgJson ->
  othersAccepted S k m ->
  exists props,
    safeParse S (VObj (<[k := VNull]> m)) = Success (VObj props) /\
    props !! k = Some VNull.
Proof.
  intros HT Hc Hty Hothers.
  assert (k <> "id") as Hne.
  { intros ->. by rewrite (id_column _ _ _ _ HT Hc) in Hty. }
  pose proof (insertSchema_has _ _ _ _ _ HT Hc Hne) as Hin.
  eexists. split.
  - apply safeParse_set_field; [|done].
    intros t Ht. rewrite (insertSchema_field _ _ _ _ _ _ HT Hc Ht).
    apply insertField_wellTyped. unfold wellTyped. rewrite Hty.
    by destruct r.
  - rewrite strip_lookup; [apply lookup_insert_eq|].
    by apply (list_elem_of_fmap_2 fst _ (k, insertField r c)).
Qed.

Lemma json_field_accepts_null_witness :
  isNotNull (json "emotional_vector" .> notNull) = true /\
  exists props,
    safeParse (insertCoreMemorySchema Bounded)
      (VObj (<["emotionalVector" := VNull]> firstLight))
      = Success (VObj props) /\
    props !! "emotionalVector" = Some VNull.
Proof.
  split; [reflexivity|].
  refine (json_field_accepts_null Bounded coreMemories _ "emotionalVector"
            (json "emotional_vector" .> notNull) firstLight _ _ eq_refl _).
  - entity_mem.
  - column_mem.
  - others_accepted.
Defined.

(** X7.  A value of the wrong primitive type is reported as such.  For a
    column other than a JSON column, a value whose type is not the
    column's (and that the field's optional or nullable wrapper does not
    take), all other fields being acceptable, fails validation with
    exactly one issue: [invalid_type], naming the expected and the
    received type, located at the field. *)
Theorem wrong_type_reported_at_field r T S k c e m v :
  (T, S) ∈ entities r -> (k, c) ∈ columns T -> k <> "id" ->
  expectedType (columnType c) = Some e -> getParsedType v <> e ->
  (v = VUndefined -> required c = true) ->
  (v = VNull -> isNotNull c = true) ->
  othersAccepted S k m ->
  safeParse S (VObj (<[k := v]> m)) =
  Failure [mkIssue (invalid_type e (getParsedType v)) [PKey k]].
Proof.
  intros HT Hc Hne He Hty Hu Hn Hothers.
  apply (safeParse_single_failure S m k (insertField r c)); try done.
  - by apply (insertSchema_NoDup r T).
  - by apply (insertSchema_has r T).
  - rewrite insertField_passes by done.
    by apply columnToSchema_wrong_type.
Qed.

Lemma wrong_type_reported_at_field_witness :
  safeParse (insertMemoryConnectionSchema Bounded)
    (VObj (<["connectionStrength" := VStr "0.5"]> causalLink)) =
  Failure [mkIssue (invalid_type TNumber TString)
             [PKey "connectionStrength"]].
Proof.
  refine (wrong_type_reported_at_field Bounded memoryConnections _
            "connectionStrength"
            (real "connection_strength" .> default (VNum 0.5)) TNumber
            causalLink (VStr "0.5") _ _ _ eq_refl _ _ _ _).
  - entity_mem.
  - column_mem.
  - discriminate.
  - discriminate.
  - discriminate.
  - discriminate.
  - others_accepted.
Defined.

(** X8.  A failed validation blames exactly the fields that are at fault:
    some issue is located at or under a field of the shape if and only if
    the payload's value for that field is not acceptable. *)
Theorem issues_located_at_rejected_fields r T S m errs k :
  (T, S) ∈ entities r -> safeParse S (VObj m) = Failure errs ->
  ((exists i, i ∈ errs /\ [PKey k] `prefix_of` path i) <->
   (exists t, (k, t) ∈ S /\ accepts t (get m k) = false)).
Proof.
  intros _ Hfail. split.
  - intros (i & Hi & Hpre).
    unfold safeParse, parseObject, mergeObjectSync in Hfail.
    assert (i ∈ collect (parsePairs S [] m).*2) as Hc.
    { destruct (collect (parsePairs S [] m).*2); [done|].
      by injection Hfail as ->. }
    apply elem_of_collect in Hc as (res & Hr & Hir).
    apply list_elem_of_fmap in Hr as ([[k0 b] res'] & -> & Hr).
    unfold parsePairs in Hr.
    apply list_elem_of_fmap in Hr as ([k' t] & Heq & Hin).
    simpl in Heq. injection Heq as -> -> ->. simpl in Hir.
    change ([] ++ [PKey k']) with [PKey k'] in Hir.
    destruct (parse t [PKey k'] (get m k')) as [|errs'] eqn:E;
      simpl in Hir; [by apply not_elem_of_nil in Hir|].
    pose proof E as E'. apply parse_failure in E' as [_ Hall].
    pose proof (proj1 (Forall_forall _ _) Hall i Hir) as [rest' Hp'].
    destruct Hpre as [rest Hp]. rewrite Hp in Hp'.
    injection Hp' as -> _.
    exists t. split; [done|].
    rewrite <- (parse_accepts t [PKey k']), E. done.
  - intros (t & Hin & Hrej).
    destruct (safeParse_reject S m k t Hin Hrej) as (errs' & i & H' & Hi & Hp).
    rewrite Hfail in H'. injection H' as <-. eauto.
Qed.

Lemma issues_located_at_rejected_fields_witness :
  safeParse (insertMemoryConnectionSchema Unbounded)
    (VObj (<["connectionType" := VNum 3]> causalLink)) =
  Failure [mkIssue (invalid_type TString TNumber) [PKey "connectionType"]] /\
  ((exists i,
      i ∈ [mkIssue (invalid_type TString TNumber) [PKey "connectionType"]] /\
      [PKey "sourceMemoryId"] `prefix_of` path i) <->
   (exists t, ("sourceMemoryId", t) ∈ insertMemoryConnectionSchema Unbounded /\
      accepts t (get (<["connectionType" := VNum 3]> causalLink)
                   "sourceMemoryId") = false)).
Proof.
  assert (safeParse (insertMemoryConnectionSchema Unbounded)
            (VObj (<["connectionType" := VNum 3]> causalLink)) =
          Failure [mkIssue (invalid_type TString TNumber)
                     [PKey "connectionType"]]) as Hfail
    by (vm_compute; reflexivity).
  split; [exact Hfail|].
  refine (issues_located_at_rejected_fields Unbounded memoryConnections _ _ _
            "sourceMemoryId" _ Hfail).
  entity_mem.
Defined.

(** X9.  A payload that supplies none of the fields of the insert shape
    (the empty object, or one with unknown keys only) is rejected with one
    issue for each required field, in the order the table declares them,
    and none for any other field. *)
Theorem empty_payload_reports_required_fields r T S m :
  (T, S) ∈ entities r -> (forall k, k ∈ S.*1 -> m !! k = None) ->
  exists errs,
    safeParse S (VObj m) = Failure errs /\
    path <$> errs = (fun k => [PKey k]) <$> requiredFields T.
Proof.
  intros HT Hnone.
  rewrite (safeParse_agree S m ∅)
    by (intros k Hk; by rewrite Hnone, lookup_empty).
  rewrite (entities_derived _ _ _ HT).
  table_cases HT; destruct r; eexists; split; vm_compute; reflexivity.
Qed.

Lemma empty_payload_reports_required_fields_witness :
  exists errs,
    safeParse (insertMemoryConnectionSchema Bounded)
      (VObj {[ "weight" := VNum 2 ]}) = Failure errs /\
    path <$> errs =
      [[PKey "sourceMemoryId"]; [PKey "targetMemoryId"];
       [PKey "connectionType"]].
Proof.
  refine (empty_payload_reports_required_fields Bounded memoryConnections _
            {[ "weight" := VNum 2 ]} _ _).
  - entity_mem.
  - intros k Hk. vm_compute in Hk.
    repeat (apply elem_of_cons in Hk as [->|Hk]; [reflexivity|]).
    by apply elem_of_nil in Hk.
Defined.

(** X10.  No numeric column enforces its documented range.  Every [real]
    column takes any number the release's number schema takes (any number
    at all in the older releases, one within the 24-bit bounds in the
    newer), and the [integer] column [recursionDepth] any such number for
    an integer column, whatever range the column's comment gives. *)
Theorem numeric_columns_unranged r T S k c m x :
  (T, S) ∈ entities r -> (k, c) ∈ columns T ->
  PrimFloat.is_nan x = false ->
  (columnType c = PgReal /\ withinWidth r x = true) \/
  (columnType c = PgInteger /\ withinInteger r x = true) ->
  othersAccepted S k m ->
  safeParse S (VObj (<[k := VNum x]> m)) =
  Success (VObj (strip S (<[k := VNum x]> m))).
Proof.
  intros HT Hc Hnan Hty Hothers.
  apply safeParse_set_field; [|done].
  intros t Ht. rewrite (insertSchema_field _ _ _ _ _ _ HT Hc Ht).
  apply insertField_wellTyped. unfold wellTyped, accepts.
  destruct Hty as [[-> Hw]|[-> Hw]].
  - destruct r; simpl; rewrite Hnan; [done|..]; simpl in Hw;
      apply andb_prop in Hw as [Hlo Hhi];
      apply negb_true_iff in Hlo, Hhi; by rewrite Hlo, Hhi.
  - destruct r; simpl; rewrite Hnan; [done|..]; simpl in Hw;
      apply andb_prop in Hw as [Hw Hint];
      apply andb_prop in Hw as [Hlo Hhi];
      apply negb_true_iff in Hlo, Hhi; by rewrite Hlo, Hhi, Hint.
Qed.

Lemma numeric_columns_unranged_witness :
  safeParse (insertCoreMemorySchema Bounded)
    (VObj (<["recursionDepth" := VNum 99]> firstLight)) =
  Success (VObj (strip (insertCoreMemorySchema Bounded)
                   (<["recursionDepth" := VNum 99]> firstLight))).
Proof.
  refine (numeric_columns_unranged Bounded coreMemories _ "recursionDepth"
            (integer "recursion_depth" .> default (VNum 0)) firstLight 99
            _ _ eq_refl _ _).
  - entity_mem.
  - column_mem.
  - right. split; reflexivity.
  - others_accepted.
Defined.

(** X11.  Every default a table declares as a literal is a value of its
    own column's type: a payload that gives the default explicitly, its
    other fields being acceptable, validates. *)
Theorem declared_default_is_well_typed r T S k c v m :
  (T, S) ∈ entities r -> (k, c) ∈ columns T ->
  defaultValue c = Literal v -> othersAccepted S k m ->
  wellTyped r c v = true /\
  safeParse S (VObj (<[k := v]> m)) =
  Success (VObj (strip S (<[k := v]> m))).
Proof.
  intros HT Hc Hdef Hothers.
  assert (wellTyped r c v = true) as Hty.
  { pose proof HT as HT'.
    table_cases HT'; column_cases Hc; simpl in Hdef; simplify_eq;
      destruct r; vm_compute; reflexivity. }
  split; [done|]. apply safeParse_set_field; [|done].
  intros t Ht. rewrite (insertSchema_field _ _ _ _ _ _ HT Hc Ht).
  by apply insertField_wellTyped.
Qed.

Lemma declared_default_is_well_typed_witness :
  wellTyped Bounded (real "connection_density" .> default (VNum 0.1))
    (VNum 0.1) = true /\
  safeParse (insertCoreMemorySchema Bounded)
    (VObj (<["connectionDensity" := VNum 0.1]> firstLight)) =
  Success (VObj (strip (insertCoreMemorySchema Bounded)
                   (<["connectionDensity" := VNum 0.1]> firstLight))).
Proof.
  refine (declared_default_is_well_typed Bounded coreMemories _
            "connectionDensity"
            (real "connection_density" .> default (VNum 0.1)) (VNum 0.1)
            firstLight _ _ eq_refl _).
  - entity_mem.
  - column_mem.
  - others_accepted.
Defined.

(** X12.  A timestamp field takes a [Date] whose time is a number: it is
    accepted and kept.  A [Date] whose time is not a number is refused
    with a single issue located at the field (an invalid date for zod 3,
    a wrong type for zod 4: the code of the issue is left open). *)
Theorem timestamp_field_takes_valid_date r T S k c m time :
  (T, S) ∈ entities r -> (k, c) ∈ columns T ->
  columnType c = PgTimestamp -> othersAccepted S k m ->
  if PrimFloat.is_nan time
  then exists i,
         safeParse S (VObj (<[k := VDate time]> m)) = Failure [i] /\
         path i = [PKey k]
  else safeParse S (VObj (<[k := VDate time]> m)) =
       Success (VObj (strip S (<[k := VDate time]> m))).
Proof.
  intros HT Hc Hty Hothers.
  assert (k <> "id") as Hne.
  { intros ->. by rewrite (id_column _ _ _ _ HT Hc) in Hty. }
  pose proof (insertSchema_has _ _ _ _ _ HT Hc Hne) as Hin.
  assert (forall p, parse (insertField r c) p (VDate time) =
                    parse ZDate p (VDate time)) as Hparse.
  { intros p. rewrite insertField_passes by done. rewrite Hty.
    by destruct r. }
  destruct (PrimFloat.is_nan time) eqn:Hnan.
  - exists (mkIssue invalid_date [PKey k]). split; [|done].
    apply (safeParse_single_failure S m k (insertField r c)); try done.
    + by apply (insertSchema_NoDup r T).
    + rewrite Hparse. simpl. by rewrite Hnan.
  - apply safeParse_set_field; [|done].
    intros t Ht. rewrite (insertSchema_field _ _ _ _ _ _ HT Hc Ht).
    unfold accepts. rewrite Hparse. simpl. by rewrite Hnan.
Qed.

Lemma timestamp_field_takes_valid_date_witness :
  exists i,
    safeParse (insertMemoryConnectionSchema Unbounded)
      (VObj (<["updatedAt" := VDate nan]> causalLink)) = Failure [i] /\
    path i = [PKey "updatedAt"].
Proof.
  refine (timestamp_field_takes_valid_date Unbounded memoryConnections _
            "updatedAt" (timestamp "updated_at" .> defaultNow) causalLink
            nan _ _ eq_refl _).
  - entity_mem.
  - column_mem.
  - others_accepted.
Defined.

(** X13.  The validators look at nothing but the fields of the insert
    shape: two payloads that give the same value, or none, to every column
    of the table other than [id] get the same outcome, whatever [id] and
    whatever unknown keys either of them carries. *)
Theorem id_and_unknown_keys_never_matter r T S m1 m2 :
  (T, S) ∈ entities r ->
  (forall k, k ∈ inferSelect T -> k <> "id" -> m1 !! k = m2 !! k) ->
  safeParse S (VObj m1) = safeParse S (VObj m2).
Proof.
  intros HT Hag. apply safeParse_agree. intros k Hk.
  rewrite (entities_derived _ _ _ HT) in Hk.
  apply insertSchema_keys in Hk as [Hne Hin]. by apply Hag.
Qed.

Lemma id_and_unknown_keys_never_matter_witness :
  safeParse (insertMemoryConnectionSchema Bounded)
    (VObj (<["id" := VNum 1]> (<["weight" := VNum 2]>
             (delete "connectionType" causalLink))))
  = safeParse (insertMemoryConnectionSchema Bounded)
      (VObj (<["id" := VStr "x"]> (delete "connectionType" causalLink))).
Proof.
  refine (id_and_unknown_keys_never_matter Bounded memoryConnections _ _ _
            _ _).
  - entity_mem.
  - intros k Hk Hne. vm_compute in Hk.
    repeat (apply elem_of_cons in Hk as [->|Hk]; [done|]).
    by apply elem_of_nil in Hk.
Defined.
